(** * Customer-Churn-MLP: the inference pipeline of [utils.py]

    A shallow embedding of [config.py] and [utils.py] (class [ModelLoader],
    [get_model_loader]) together with the one call sequence of [app.py]
    that reaches them, and the properties of the pipeline.

    Python objects live in a store addressed by references; every function
    of the program is a computation in a state-and-exception monad over
    that store, the artifact files on disk and a trace of what the
    program did to the outside world (files opened, log records written,
    fitted objects invoked).  Numbers are what pandas and numpy make of
    them: Python integers are [Z], floating values are binary64
    ([PrimFloat.float]). *)

From Stdlib Require Import ZArith List String Bool Arith Lia Floats.
Import ListNotations.

(* ================================================================== *)
(** ** Numbers *)

(** The value of a Python [int] once it sits in a float64 array: the
    nearest binary64 value (numpy's int-to-double conversion). *)
Definition float_of_Z (z : Z) : float :=
  SF2Prim (binary_normalize prec emax z 0 false).

(** One cell of a data frame: an integer column or a float64 column. *)
Inductive cell : Type :=
| CInt (z : Z)
| CFloat (x : float).

Definition to_float64 (c : cell) : float :=
  match c with
  | CInt z => float_of_Z z
  | CFloat x => x
  end.

(** A one-row [pandas.DataFrame]: the columns in order, each with its
    name and its single value. *)
Definition DataFrame : Type := list (string * cell).

Definition columns (df : DataFrame) : list string := map fst df.
Definition values (df : DataFrame) : list float :=
  map (fun c => to_float64 (snd c)) df.

(* ================================================================== *)
(** ** config.py *)

Module Config.

(** The four artifact paths ([BASE_DIR / 'model.h5'] and so on). *)
Inductive path : Type :=
| MODEL_PATH
| LABEL_ENCODER_GENDER_PATH
| ONE_HOT_ENCODER_PATH
| SCALER_PATH.

Definition file_name (p : path) : string :=
  match p with
  | MODEL_PATH => "model.h5"
  | LABEL_ENCODER_GENDER_PATH => "label_encoder_gender.pkl"
  | ONE_HOT_ENCODER_PATH => "OHE.pkl"
  | SCALER_PATH => "scaler.pkl"
  end.

Definition CHURN_THRESHOLD : float := 0.5%float.

End Config.
Export Config.

(* ================================================================== *)
(** ** Exceptions *)

(** The exceptions the pipeline can meet, by what raised them. *)
Inductive exn : Type :=
| FileNotFoundError (p : path)          (* open() on a missing file *)
| OSError (p : path)                    (* file present but cannot be read;
                                           load_model on a missing file *)
| BadFormat (p : path)                  (* the bytes do not deserialize:
                                           pickle.UnpicklingError, or the
                                           HDF5 reader's error *)
| UnseenLabel (v : string)              (* LabelEncoder: ValueError, y
                                           contains previously unseen labels *)
| UnknownCategory (v : string)          (* OneHotEncoder: ValueError,
                                           found unknown categories *)
| FeatureCountMismatch (got expected : nat)  (* StandardScaler: ValueError,
                                           X has n features, expecting m *)
| InputShapeMismatch (got expected : nat)    (* the network: incompatible
                                           input shape *)
| AttributeError (attr : string).       (* method called on None *)

(** The taxonomy of section 7 of the specification. *)
Inductive error_class : Type := LoadError | EncodingError | InferenceError.

Definition classify (e : exn) : option error_class :=
  match e with
  | FileNotFoundError _ | OSError _ | BadFormat _ => Some LoadError
  | UnseenLabel _ | UnknownCategory _ => Some EncodingError
  | FeatureCountMismatch _ _ | InputShapeMismatch _ _ => Some InferenceError
  | AttributeError _ => None
  end.

(* ================================================================== *)
(** ** The fitted artifacts

    The four artifact files are not part of the sources; what the
    program relies on is their interface. *)

(** Modelled from the spec: the gender label encoder artifact, a fitted
    label-encoding object exposing [classes_] (ordered category list)
    and a [transform] operation. *)
Record LabelEncoder : Type := { classes_ : list string }.

(** Modelled from the spec: the geography one-hot encoder artifact,
    exposing [categories_[0]] (ordered category list), [transform] and
    [get_feature_names_out]. *)
Record OneHotEncoder : Type := { categories_ : list string }.

(** Modelled from the spec: the scaler artifact, a fitted standardization
    object holding the per-column mean and standard deviation captured
    at fit time. *)
Record StandardScaler : Type := { mean_ : list float; scale_ : list float }.

(** Modelled from the spec: the classifier artifact, an opaque function
    from a row of the expected input width to one scalar output. *)
Record KerasModel : Type :=
  { input_width : nat; forward : list float -> float }.

Fixpoint index_of (v : string) (l : list string) : option nat :=
  match l with
  | [] => None
  | c :: l' =>
      if String.eqb c v then Some O
      else match index_of v l' with
           | Some i => Some (S i)
           | None => None
           end
  end.

(** Modelled from the spec: [LabelEncoder.transform([v])[0]], the integer
    class index of [v]; an unseen label is an error. *)
Definition LabelEncoder_transform (le : LabelEncoder) (v : string)
  : exn + Z :=
  match index_of v (classes_ le) with
  | Some i => inr (Z.of_nat i)
  | None => inl (UnseenLabel v)
  end.

Definition one_hot (cats : list string) (v : string) : list float :=
  map (fun c => if String.eqb c v then 1%float else 0%float) cats.

(** Modelled from the spec: [OneHotEncoder.transform([[v]])], as many
    binary columns as fitted categories, in fitted order; a value outside
    the fitted set is an error. *)
Definition OneHotEncoder_transform (ohe : OneHotEncoder) (v : string)
  : exn + list float :=
  if existsb (String.eqb v) (categories_ ohe)
  then inr (one_hot (categories_ ohe) v)
  else inl (UnknownCategory v).

(** Modelled from the spec: [get_feature_names_out([prefix])], the
    columns named by category. *)
Definition get_feature_names_out (ohe : OneHotEncoder) (prefix : string)
  : list string :=
  map (fun c => (prefix ++ "_" ++ c)%string) (categories_ ohe).

Fixpoint standardize (xs mus sigmas : list float) : list float :=
  match xs, mus, sigmas with
  | x :: xs', mu :: mus', sigma :: sigmas' =>
      ((x - mu) / sigma)%float :: standardize xs' mus' sigmas'
  | _, _, _ => []
  end.

(** Modelled from the spec: [StandardScaler.transform], subtract the
    per-column mean and divide by the per-column standard deviation; a
    row of another width than the one seen at fit time is an error.
    Columns are matched by position, never by name. *)
Definition StandardScaler_transform (sc : StandardScaler) (row : list float)
  : exn + list float :=
  if (List.length row =? List.length (mean_ sc))%nat
     && (List.length (scale_ sc) =? List.length (mean_ sc))%nat
  then inr (standardize row (mean_ sc) (scale_ sc))
  else inl (FeatureCountMismatch (List.length row) (List.length (mean_ sc))).

(** Modelled from the spec: [model.predict(row, verbose=0)[0][0]], one
    scalar for the single row; a row of the wrong width is an error. *)
Definition KerasModel_predict (m : KerasModel) (row : list float)
  : exn + float :=
  if (List.length row =? input_width m)%nat
  then inr (forward m row)
  else inl (InputShapeMismatch (List.length row) (input_width m)).

(* ================================================================== *)
(** ** The state of the process *)

(** The input dictionary of [predict], with the keys [app.py] gives it
    (lines 272-283): two strings from the select boxes, integers from
    the sliders and the 1/0 radio buttons, floats from the number
    inputs. *)
Record RawCustomerRecord : Type :=
  { geography : string;
    gender : string;
    age : Z;
    credit_score : Z;
    balance : float;
    estimated_salary : float;
    tenure : Z;
    num_of_products : Z;
    has_cr_card : Z;
    is_active_member : Z }.

(** What can be found at an artifact path. *)
Inductive file (A : Type) : Type :=
| Missing
| Unreadable
| Corrupt
| Stored (a : A).
Arguments Missing {A}.
Arguments Unreadable {A}.
Arguments Corrupt {A}.
Arguments Stored {A} a.

Record Disk : Type :=
  { model_h5 : file KerasModel;
    label_encoder_gender_pkl : file LabelEncoder;
    OHE_pkl : file OneHotEncoder;
    scaler_pkl : file StandardScaler }.

(** The attributes of a [ModelLoader] object; [None] is Python's None. *)
Record ModelLoader : Type :=
  { model : option KerasModel;
    label_encoder_gender : option LabelEncoder;
    one_hot_encoder : option OneHotEncoder;
    scaler : option StandardScaler }.

Definition set_model (v : option KerasModel) (o : ModelLoader) :=
  {| model := v; label_encoder_gender := label_encoder_gender o;
     one_hot_encoder := one_hot_encoder o; scaler := scaler o |}.
Definition set_label_encoder_gender (v : option LabelEncoder)
    (o : ModelLoader) :=
  {| model := model o; label_encoder_gender := v;
     one_hot_encoder := one_hot_encoder o; scaler := scaler o |}.
Definition set_one_hot_encoder (v : option OneHotEncoder) (o : ModelLoader) :=
  {| model := model o; label_encoder_gender := label_encoder_gender o;
     one_hot_encoder := v; scaler := scaler o |}.
Definition set_scaler (v : option StandardScaler) (o : ModelLoader) :=
  {| model := model o; label_encoder_gender := label_encoder_gender o;
     one_hot_encoder := one_hot_encoder o; scaler := v |}.

(** The fitted objects the pipeline calls. *)
Inductive component : Type :=
| GenderEncoder | GeographyEncoder | Scaler | Classifier.

(** What the program does to the outside world, in order. *)
Inductive event : Type :=
| Open (p : path)
| LogInfo (msg : string)
| LogError (msg : string) (e : exn)
| Invoke (c : component).

Definition ref : Type := nat.

(** Objects are reached through references; [_model_loader] is the
    module-level global of [utils.py] (line 108). *)
Record World : Type :=
  { disk : Disk;
    loaders : ref -> ModelLoader;
    dicts : ref -> RawCustomerRecord;
    next_ref : ref;
    _model_loader : option ref;
    trace : list event }.

Definition upd {A : Type} (f : ref -> A) (l : ref) (a : A) : ref -> A :=
  fun k => if Nat.eqb k l then a else f k.

Definition with_loaders (h : ref -> ModelLoader) (w : World) : World :=
  {| disk := disk w; loaders := h; dicts := dicts w;
     next_ref := next_ref w; _model_loader := _model_loader w;
     trace := trace w |}.
Definition with_dicts (h : ref -> RawCustomerRecord) (w : World) : World :=
  {| disk := disk w; loaders := loaders w; dicts := h;
     next_ref := next_ref w; _model_loader := _model_loader w;
     trace := trace w |}.
Definition with_next_ref (n : ref) (w : World) : World :=
  {| disk := disk w; loaders := loaders w; dicts := dicts w;
     next_ref := n; _model_loader := _model_loader w;
     trace := trace w |}.
Definition with_global (g : option ref) (w : World) : World :=
  {| disk := disk w; loaders := loaders w; dicts := dicts w;
     next_ref := next_ref w; _model_loader := g;
     trace := trace w |}.
Definition with_trace (t : list event) (w : World) : World :=
  {| disk := disk w; loaders := loaders w; dicts := dicts w;
     next_ref := next_ref w; _model_loader := _model_loader w;
     trace := t |}.

(* ================================================================== *)
(** ** Computations: state and exceptions *)

Definition M (A : Type) : Type := World -> (exn + A) * World.

Definition ret {A : Type} (a : A) : M A := fun w => (inr a, w).

Definition raise {A : Type} (e : exn) : M A := fun w => (inl e, w).

Definition bind {A B : Type} (c : M A) (k : A -> M B) : M B :=
  fun w =>
    match c w with
    | (inl e, w') => (inl e, w')
    | (inr a, w') => k a w'
    end.

(** [try: body except Exception as e: handler e]. *)
Definition try_except {A : Type} (body : M A) (handler : exn -> M A) : M A :=
  fun w =>
    match body w with
    | (inl e, w') => handler e w'
    | (inr a, w') => (inr a, w')
    end.

Declare Scope py_scope.
Delimit Scope py_scope with py.
Notation "x <- c ;; k" := (bind c (fun x => k))
  (at level 100, c at next level, right associativity) : py_scope.
Notation "c ;; k" := (bind c (fun _ => k))
  (at level 100, right associativity) : py_scope.
Open Scope py_scope.

Definition emit (ev : event) : M unit :=
  fun w => (inr tt, with_trace (trace w ++ [ev]) w).

(** Returning normally with a value, or raising. *)
Definition lift {A : Type} (r : exn + A) : M A := fun w => (r, w).

(** A call into a fitted object: recorded, then its result or error. *)
Definition invoke {A : Type} (c : component) (r : exn + A) : M A :=
  emit (Invoke c) ;; lift r.

(** [self.field.meth]: the attribute, or AttributeError when it is None. *)
Definition getattr {A : Type} (self : ref) (field : ModelLoader -> option A)
    (meth : string) : M A :=
  fun w =>
    match field (loaders w self) with
    | Some a => (inr a, w)
    | None => (inl (AttributeError meth), w)
    end.

(** [self.field = v]. *)
Definition setattr (self : ref) (assign : ModelLoader -> ModelLoader)
  : M unit :=
  fun w =>
    (inr tt,
     with_loaders (upd (loaders w) self (assign (loaders w self))) w).

(** [input_data[key]]. *)
Definition getitem {A : Type} (input_data : ref) (key : RawCustomerRecord -> A)
  : M A :=
  fun w => (inr (key (dicts w input_data)), w).

(** A fresh object. *)
Definition new_object : M ref :=
  fun w => (inr (next_ref w), with_next_ref (S (next_ref w)) w).

(* ================================================================== *)
(** ** utils.py *)

(** [tf.keras.models.load_model(str(MODEL_PATH))]: the HDF5 reader
    reports a missing file as an OSError. *)
Definition load_model (p : path) : M KerasModel :=
  emit (Open p) ;;
  fun w =>
    match model_h5 (disk w) with
    | Missing => (inl (OSError p), w)
    | Unreadable => (inl (OSError p), w)
    | Corrupt => (inl (BadFormat p), w)
    | Stored m => (inr m, w)
    end.

(** [with open(p, 'rb') as f: pickle.load(f)]. *)
Definition pickle_load {A : Type} (p : path) (at_p : Disk -> file A) : M A :=
  emit (Open p) ;;
  fun w =>
    match at_p (disk w) with
    | Missing => (inl (FileNotFoundError p), w)
    | Unreadable => (inl (OSError p), w)
    | Corrupt => (inl (BadFormat p), w)
    | Stored a => (inr a, w)
    end.

(** [ModelLoader._load_all] (lines 35-56). *)
Definition _load_all (self : ref) : M unit :=
  try_except
    (emit (LogInfo "Loading model and preprocessors...") ;;
     m <- load_model MODEL_PATH ;;
     setattr self (set_model (Some m)) ;;
     le <- pickle_load LABEL_ENCODER_GENDER_PATH label_encoder_gender_pkl ;;
     setattr self (set_label_encoder_gender (Some le)) ;;
     ohe <- pickle_load ONE_HOT_ENCODER_PATH OHE_pkl ;;
     setattr self (set_one_hot_encoder (Some ohe)) ;;
     sc <- pickle_load SCALER_PATH scaler_pkl ;;
     setattr self (set_scaler (Some sc)) ;;
     emit (LogInfo "Successfully loaded all components"))
    (fun e =>
       match e with
       | FileNotFoundError _ =>
           emit (LogError "Required file not found" e) ;; raise e
       | _ =>
           emit (LogError "Error loading model/preprocessors" e) ;; raise e
       end).

(** [ModelLoader.__init__] (lines 28-33). *)
Definition __init__ (self : ref) : M unit :=
  setattr self (set_model None) ;;
  setattr self (set_label_encoder_gender None) ;;
  setattr self (set_one_hot_encoder None) ;;
  setattr self (set_scaler None) ;;
  _load_all self.

(** The expression [ModelLoader()]: a fresh object, initialized; the
    reference reaches the caller only when [__init__] returns. *)
Definition ModelLoader_new : M ref :=
  self <- new_object ;;
  __init__ self ;;
  ret self.

(** Lines 70-90 of [ModelLoader.predict]: the data frame [df] after the
    [pd.concat].  The dictionary literal is evaluated entry by entry, so
    the gender encoder is called before the later keys are read; the
    geography frame pairs the encoder's column names with the encoded
    row, which have the same length. *)
Definition assemble (self input_data : ref) : M DataFrame :=
  CreditScore <- getitem input_data credit_score ;;
  le <- getattr self label_encoder_gender "transform" ;;
  g <- getitem input_data gender ;;
  Gender <- invoke GenderEncoder (LabelEncoder_transform le g) ;;
  Age <- getitem input_data age ;;
  Tenure <- getitem input_data tenure ;;
  Balance <- getitem input_data balance ;;
  NumOfProducts <- getitem input_data num_of_products ;;
  HasCrCard <- getitem input_data has_cr_card ;;
  IsActiveMember <- getitem input_data is_active_member ;;
  EstimatedSalary <- getitem input_data estimated_salary ;;
  let df : DataFrame :=
    [ ("CreditScore"%string, CInt CreditScore);
      ("Gender"%string, CInt Gender);
      ("Age"%string, CInt Age);
      ("Tenure"%string, CInt Tenure);
      ("Balance"%string, CFloat Balance);
      ("NumOfProducts"%string, CInt NumOfProducts);
      ("HasCrCard"%string, CInt HasCrCard);
      ("IsActiveMember"%string, CInt IsActiveMember);
      ("EstimatedSalary"%string, CFloat EstimatedSalary) ] in
  ohe <- getattr self one_hot_encoder "transform" ;;
  geo <- getitem input_data geography ;;
  geo_encoded <- invoke GeographyEncoder (OneHotEncoder_transform ohe geo) ;;
  ohe' <- getattr self one_hot_encoder "get_feature_names_out" ;;
  let geo_encoded_df : DataFrame :=
    combine (get_feature_names_out ohe' "Geography") (map CFloat geo_encoded) in
  ret (df ++ geo_encoded_df).

(** Lines 70-93: the standardized row [df_scaled]. *)
Definition feature_vector (self input_data : ref) : M (list float) :=
  df <- assemble self input_data ;;
  sc <- getattr self scaler "transform" ;;
  invoke Scaler (StandardScaler_transform sc (values df)).

(** [ModelLoader.predict] (lines 58-104). *)
Definition predict (self input_data : ref) : M (float * bool) :=
  try_except
    (df_scaled <- feature_vector self input_data ;;
     m <- getattr self model "predict" ;;
     probability <- invoke Classifier (KerasModel_predict m df_scaled) ;;
     let will_churn := (0.5 <? probability)%float in
     ret (probability, will_churn))
    (fun e => emit (LogError "Error during prediction" e) ;; raise e).

(** The module global [_model_loader], read and assigned. *)
Definition get_global : M (option ref) :=
  fun w => (inr (_model_loader w), w).
Definition set_global (g : option ref) : M unit :=
  fun w => (inr tt, with_global g w).

(** [get_model_loader] (lines 111-116). *)
Definition get_model_loader : M ref :=
  cached <- get_global ;;
  match cached with
  | None =>
      self <- ModelLoader_new ;;
      set_global (Some self) ;;
      ret self
  | Some self => ret self
  end.

(* ================================================================== *)
(** ** app.py: the calls into utils.py *)

(** The dictionary literal of lines 272-283. *)
Definition new_dict (r : RawCustomerRecord) : M ref :=
  fun w =>
    (inr (next_ref w),
     with_next_ref (S (next_ref w))
       (with_dicts (upd (dicts w) (next_ref w) r) w)).

(** One run of the script that reaches the Predict button:
    [load_model()] (line 161), the input dictionary, then
    [model_loader.predict(input_data)] (line 290). *)
Definition app_predict (r : RawCustomerRecord) : M (float * bool) :=
  model_loader <- get_model_loader ;;
  input_data <- new_dict r ;;
  predict model_loader input_data.

Inductive request : Type :=
| Get
| Predict (r : RawCustomerRecord).

Inductive response : Type :=
| Loader (res : exn + ref)
| Prediction (res : exn + float * bool).

Definition serve (q : request) (w : World) : response * World :=
  match q with
  | Get => let '(res, w') := get_model_loader w in (Loader res, w')
  | Predict r => let '(res, w') := app_predict r w in (Prediction res, w')
  end.

Fixpoint session (qs : list request) (w : World) : list response * World :=
  match qs with
  | [] => ([], w)
  | q :: qs' =>
      let '(a, w') := serve q w in
      let '(rest, w'') := session qs' w' in
      (a :: rest, w'')
  end.

(* ================================================================== *)
(** ** A concrete installation *)

Module Example.

Definition gender_encoder : LabelEncoder :=
  {| classes_ := ["Female"; "Male"]%string |}.

Definition geo_encoder : OneHotEncoder :=
  {| categories_ := ["France"; "Germany"; "Spain"]%string |}.

Definition the_scaler : StandardScaler :=
  {| mean_ := [650.5; 0.5; 38.75; 5; 76485.5; 1.5; 0.75; 0.5; 100090.25;
               0.5; 0.25; 0.25]%float;
     scale_ := [96.5; 0.5; 10.5; 2.875; 62397.5; 0.5; 0.5; 0.5; 57510.5;
                0.5; 0.5; 0.5]%float |}.

(** A stand-in network: one linear unit followed by a hard sigmoid, so
    that its output stays between 0 and 1. *)
Definition hard_sigmoid (z : float) : float :=
  if ((0 <=? z) && (z <=? 1))%float then z
  else if (1 <? z)%float then 1%float
  else 0%float.

Definition the_model : KerasModel :=
  {| input_width := 12;
     forward := fun xs =>
       hard_sigmoid (0.5 + 0.125 * fold_left PrimFloat.add xs 0)%float |}.

(** A network that was not given a sigmoid output layer. *)
Definition linear_model : KerasModel :=
  {| input_width := 12; forward := fun _ => 2%float |}.

Definition good_disk : Disk :=
  {| model_h5 := Stored the_model;
     label_encoder_gender_pkl := Stored gender_encoder;
     OHE_pkl := Stored geo_encoder;
     scaler_pkl := Stored the_scaler |}.

Definition blank : ModelLoader :=
  {| model := None; label_encoder_gender := None;
     one_hot_encoder := None; scaler := None |}.

(** The scenario of section 8 of the specification. *)
Definition customer : RawCustomerRecord :=
  {| geography := "France"; gender := "Male"; age := 40;
     credit_score := 650; balance := 0; estimated_salary := 50000;
     tenure := 5; num_of_products := 1; has_cr_card := 1;
     is_active_member := 1 |}.

(** The process as it starts: nothing loaded, nothing logged. *)
Definition boot (d : Disk) : World :=
  {| disk := d; loaders := fun _ => blank; dicts := fun _ => customer;
     next_ref := 0; _model_loader := None; trace := [] |}.

(** The process once the artifacts are loaded. *)
Definition running : World := snd (get_model_loader (boot good_disk)).

(** A customer from a country the encoder was not fitted on. *)
Definition stranger : RawCustomerRecord :=
  {| geography := "Italy"; gender := "Male"; age := 40;
     credit_score := 650; balance := 0; estimated_salary := 50000;
     tenure := 5; num_of_products := 1; has_cr_card := 1;
     is_active_member := 1 |}.

(** An installation whose scaler file was not shipped. *)
Definition broken_disk : Disk :=
  {| model_h5 := Stored the_model;
     label_encoder_gender_pkl := Stored gender_encoder;
     OHE_pkl := Stored geo_encoder;
     scaler_pkl := Missing |}.

(** The process after a start on that installation. *)
Definition stalled : World := snd (get_model_loader (boot broken_disk)).

End Example.

(* ================================================================== *)
(** ** Vocabulary of the properties *)

(** The world after the program has emitted [evs] and touched nothing
    else. *)
Definition log (evs : list event) (w : World) : World :=
  with_trace (trace w ++ evs) w.

Definition is_open (ev : event) : bool :=
  match ev with Open _ => true | _ => false end.

(** The files the program has opened, in order. *)
Definition opened (t : list event) : list event := filter is_open t.

(** Two computations _agree_ on a pair of loader objects and a pair of
    input dictionaries when, started in any two worlds where the two
    loaders have the same contents and the two dictionaries have the
    same contents, they end with the same result and have emitted the
    same events, none of them the opening of a file, and emitting those
    events is all either did to its world. *)
Definition agree (self1 input1 self2 input2 : ref) {A : Type}
    (c1 c2 : M A) : Prop :=
  forall w1 w2,
    loaders w1 self1 = loaders w2 self2 ->
    dicts w1 input1 = dicts w2 input2 ->
    exists res evs,
      c1 w1 = (res, log evs w1) /\ c2 w2 = (res, log evs w2) /\
      opened evs = [].

(** A loader object whose four attributes hold artifacts. *)
Definition artifacts (m : KerasModel) (le : LabelEncoder)
    (ohe : OneHotEncoder) (sc : StandardScaler) : ModelLoader :=
  {| model := Some m; label_encoder_gender := Some le;
     one_hot_encoder := Some ohe; scaler := Some sc |}.

(** The fitted objects in the order [predict] calls them. *)
Definition pipeline : list component :=
  [GenderEncoder; GeographyEncoder; Scaler; Classifier].

Definition prefix_of {A : Type} (l1 l2 : list A) : Prop :=
  exists rest, l1 ++ rest = l2.

(** A probability: a binary64 value between 0 and 1 (so not a NaN). *)
Definition in_unit_interval (p : float) : Prop :=
  (0 <=? p)%float = true /\ (p <=? 1)%float = true.

(** The contract of the classifier artifact (section 4.3 of the
    specification): a sigmoid-style output layer. *)
Definition sigmoid_output (m : KerasModel) : Prop :=
  forall xs, in_unit_interval (forward m xs).

(** The artifacts were produced together: scaler and network were fitted
    on rows of the width the assembler builds. *)
Definition fitted_together (m : KerasModel) (ohe : OneHotEncoder)
    (sc : StandardScaler) : Prop :=
  List.length (mean_ sc) = 9 + List.length (categories_ ohe) /\
  List.length (scale_ sc) = 9 + List.length (categories_ ohe) /\
  input_width m = 9 + List.length (categories_ ohe).

(** All four artifact files are present and deserialize. *)
Definition intact (d : Disk) : bool :=
  match model_h5 d, label_encoder_gender_pkl d, OHE_pkl d, scaler_pkl d with
  | Stored _, Stored _, Stored _, Stored _ => true
  | _, _, _, _ => false
  end.

(** The files change under the program (somebody repairs the
    installation); the program never writes them. *)
Definition with_disk (d : Disk) (w : World) : World :=
  {| disk := d; loaders := loaders w; dicts := dicts w;
     next_ref := next_ref w; _model_loader := _model_loader w;
     trace := trace w |}.

(** Every [get_model_loader] answer in a session is the instance [self]. *)
Definition answers_with (self : ref) (a : response) : Prop :=
  match a with
  | Loader res => res = inr self
  | Prediction _ => True
  end.

(* ================================================================== *)
(** ** config.py: the constants of the user interface *)

Module UI.

Local Open Scope string_scope.

Definition APP_TITLE : string := "Customer Churn Prediction".
Definition APP_ICON : string := "📊".
Definition PAGE_LAYOUT : string := "wide".

Definition PRIMARY_COLOR : string := "#1f77b4".
Definition SUCCESS_COLOR : string := "#2ecc71".
Definition WARNING_COLOR : string := "#f39c12".
Definition DANGER_COLOR : string := "#e74c3c".

(** One entry of [INPUT_RANGES]: the keys 'min', 'max' and 'default'. *)
Record Range : Type := { min : Z; max : Z; default : Z }.

(** The keys of [INPUT_RANGES]. *)
Inductive field : Type :=
| Age | CreditScore | Balance | EstimatedSalary | Tenure | NumOfProducts.

Definition INPUT_RANGES (key : field) : Range :=
  match key with
  | Age => {| min := 18; max := 100; default := 40 |}
  | CreditScore => {| min := 300; max := 850; default := 650 |}
  | Balance => {| min := 0; max := 250000; default := 0 |}
  | EstimatedSalary => {| min := 0; max := 200000; default := 50000 |}
  | Tenure => {| min := 0; max := 10; default := 5 |}
  | NumOfProducts => {| min := 1; max := 4; default := 1 |}
  end.

End UI.

(* ================================================================== *)
(** ** app.py

    The functions of the script: [load_model], the two chart builders
    and [main].  A run of [main] is a computation over the process, the
    cache of [st.cache_resource] and the list of Streamlit calls made so
    far, each with the container it was made in.  What the input
    widgets return is given by the browser, not by the script: it is a
    parameter of the run.  Formatted strings keep their parts, so that
    no rendering of a float has to be chosen.  The page configuration
    and the style sheet that the module sets up before [main] (lines
    29-84) are constants and play no part in what follows. *)

Module App.

Local Open Scope string_scope.

(** The double quote, for the HTML attributes of the page. *)
Definition dq : string := String (Ascii.ascii_of_nat 34) EmptyString.

(** A formatted string: its literal parts and the values interpolated
    into it, each with its format specification, not yet rendered. *)
Inductive piece : Type :=
| Lit (s : string)
| Fmt_int (z : Z)                      (* {z} *)
| Fmt_float (spec : string) (x : float)  (* {x:spec} *)
| Fmt_exn (e : exn).                   (* {e}, {str(e)} *)

Definition text : Type := list piece.

(** The arguments of a plotly object: numbers, strings, lists and
    dictionaries. *)
Unset Elimination Schemes.
Inductive pyval : Type :=
| PNone
| PBool (b : bool)
| PInt (z : Z)
| PFloat (x : float)
| PStr (s : string)
| PText (t : text)
| PList (l : list pyval)
| PDict (kv : list (string * pyval)).
Set Elimination Schemes.

(** A [go.Figure] holding one trace, after [update_layout]: the kind
    of the trace, its keyword arguments and those of the layout. *)
Record Figure : Type :=
  { trace_type : string;
    args : list (string * pyval);
    layout : list (string * pyval) }.

Fixpoint lookup (key : string) (kv : list (string * pyval)) : option pyval :=
  match kv with
  | [] => None
  | (k, v) :: kv' => if String.eqb k key then Some v else lookup key kv'
  end.

(** [create_probability_gauge] (lines 97-125). *)
Definition create_probability_gauge (probability : float) : Figure :=
  {| trace_type := "Indicator";
     args :=
       [ ("mode", PStr "gauge+number+delta");
         ("value", PFloat (probability * 100)%float);
         ("domain", PDict [ ("x", PList [PInt 0; PInt 1]);
                            ("y", PList [PInt 0; PInt 1]) ]);
         ("title", PDict [ ("text", PStr "Churn Probability (%)") ]);
         ("delta", PDict [ ("reference", PInt 50) ]);
         ("gauge",
          PDict
            [ ("axis", PDict [ ("range", PList [PNone; PInt 100]) ]);
              ("bar", PDict [ ("color", PStr "darkblue") ]);
              ("steps",
               PList
                 [ PDict [ ("range", PList [PInt 0; PInt 50]);
                           ("color", PStr "lightgray") ];
                   PDict [ ("range", PList [PInt 50; PInt 100]);
                           ("color", PStr "gray") ] ]);
              ("threshold",
               PDict
                 [ ("line", PDict [ ("color", PStr "red");
                                    ("width", PInt 4) ]);
                   ("thickness", PFloat 0.75%float);
                   ("value", PInt 50) ]) ]) ];
     layout :=
       [ ("height", PInt 300);
         ("margin", PDict [ ("l", PInt 20); ("r", PInt 20);
                            ("t", PInt 40); ("b", PInt 20) ]);
         ("paper_bgcolor", PStr "white");
         ("font", PDict [ ("color", PStr "darkblue");
                          ("family", PStr "Arial") ]) ] |}.

(** [create_probability_bar] (lines 128-147). *)
Definition create_probability_bar (probability : float) : Figure :=
  let colors :=
    [ if (CHURN_THRESHOLD <? probability)%float
      then UI.DANGER_COLOR else UI.SUCCESS_COLOR ] in
  {| trace_type := "Bar";
     args :=
       [ ("x", PList [PFloat (probability * 100)%float]);
         ("y", PList [PStr "Churn Risk"]);
         ("orientation", PStr "h");
         ("marker", PDict [ ("color", PList (map PStr colors)) ]);
         ("text",
          PList [PText [Fmt_float ".2f" (probability * 100)%float; Lit "%"]]);
         ("textposition", PStr "inside");
         ("textfont", PDict [ ("size", PInt 20);
                              ("color", PStr "white") ]) ];
     layout :=
       [ ("xaxis", PDict [ ("range", PList [PInt 0; PInt 100]);
                           ("title", PStr "Probability (%)") ]);
         ("yaxis", PDict [ ("visible", PBool false) ]);
         ("height", PInt 150);
         ("margin", PDict [ ("l", PInt 0); ("r", PInt 0);
                            ("t", PInt 0); ("b", PInt 0) ]);
         ("paper_bgcolor", PStr "white");
         ("plot_bgcolor", PStr "white") ] |}.

(** Where an element goes: the page itself, [st.sidebar], or one of the
    two columns of [st.columns([2, 1])]. *)
Inductive container : Type := Body | Sidebar | Col1 | Col2.

(** The Streamlit calls of the script, with their arguments. *)
Inductive element : Type :=
| Markdown (body : text) (unsafe_allow_html : bool)
| Header (body : string)
| Subheader (body : string)
| Selectbox (label : string) (options : list string) (help : string)
| Slider (label : string) (min_value max_value value : Z) (help : string)
| NumberInput (label : string) (min_value max_value value step : float)
    (format help : string)
| Radio (label : string) (options : list string) (help : string)
| Columns (spec : list Z)
| Button (label type_ : string) (use_container_width : bool)
| Spinner (body : string)
| PlotlyChart (fig : Figure) (use_container_width : bool)
| Warning (body : string)
| Success (body : string)
| Error (body : text)
| Exception (e : exn)
| Metric (label : string) (value : text)
| Text (body : text).

(** What the widgets return in one run of the script: the state the
    browser holds for them.  Streamlit is not part of the sources; a
    widget is identified by its label and its arguments. *)
Record Streamlit : Type :=
  { selectbox : string -> list string -> string;
    slider : string -> Z -> Z -> Z -> Z;
    number_input : string -> float -> float -> float -> float -> float;
    radio : string -> list string -> string;
    button : string -> bool }.

(** The state of a run: the process, the cache of [st.cache_resource]
    for [load_model], and what has been put on the page so far. *)
Record Page : Type :=
  { world : World;
    resource_cache : option ref;
    screen : list (container * element) }.

Definition with_world (w : World) (pg : Page) : Page :=
  {| world := w; resource_cache := resource_cache pg; screen := screen pg |}.
Definition with_resource_cache (c : option ref) (pg : Page) : Page :=
  {| world := world pg; resource_cache := c; screen := screen pg |}.
Definition with_screen (s : list (container * element)) (pg : Page) : Page :=
  {| world := world pg; resource_cache := resource_cache pg; screen := s |}.

(** How a run ends early: [st.stop()] (a BaseException, which
    [except Exception] does not catch), or an exception nobody caught. *)
Inductive halt : Type :=
| StopException
| Uncaught (e : exn).

Definition P (A : Type) : Type := Page -> (halt + A) * Page.

Definition pret {A : Type} (a : A) : P A := fun pg => (inr a, pg).

Definition pbind {A B : Type} (c : P A) (k : A -> P B) : P B :=
  fun pg =>
    match c pg with
    | (inl h, pg') => (inl h, pg')
    | (inr a, pg') => k a pg'
    end.

(** [try: body except Exception as e: handler e]. *)
Definition ptry {A : Type} (body : P A) (handler : exn -> P A) : P A :=
  fun pg =>
    match body pg with
    | (inl (Uncaught e), pg') => handler e pg'
    | (inl StopException, pg') => (inl StopException, pg')
    | (inr a, pg') => (inr a, pg')
    end.

(** A call into utils.py. *)
Definition run {A : Type} (c : M A) : P A :=
  fun pg =>
    match c (world pg) with
    | (inl e, w') => (inl (Uncaught e), with_world w' pg)
    | (inr a, w') => (inr a, with_world w' pg)
    end.

Declare Scope page_scope.
Delimit Scope page_scope with page.
Notation "x <- c ;; k" := (pbind c (fun x => k))
  (at level 100, c at next level, right associativity) : page_scope.
Notation "c ;; k" := (pbind c (fun _ => k))
  (at level 100, right associativity) : page_scope.
Local Open Scope page_scope.

(** A display call [st.<element>(...)] inside [with <container>:]. *)
Definition render (place : container) (el : element) : P unit :=
  fun pg => (inr tt, with_screen (screen pg ++ [(place, el)])%list pg).

(** [st.stop()]. *)
Definition st_stop {A : Type} : P A := fun pg => (inl StopException, pg).

(** The input widgets: drawn, then the value the browser holds. *)
Definition st_selectbox (st : Streamlit) (place : container)
    (label : string) (options : list string) (help : string) : P string :=
  render place (Selectbox label options help) ;;
  pret (selectbox st label options).

Definition st_slider (st : Streamlit) (place : container)
    (label : string) (min_value max_value value : Z) (help : string) : P Z :=
  render place (Slider label min_value max_value value help) ;;
  pret (slider st label min_value max_value value).

Definition st_number_input (st : Streamlit) (place : container)
    (label : string) (min_value max_value value step : float)
    (format help : string) : P float :=
  render place (NumberInput label min_value max_value value step format help) ;;
  pret (number_input st label min_value max_value value step).

Definition st_radio (st : Streamlit) (place : container)
    (label : string) (options : list string) (help : string) : P string :=
  render place (Radio label options help) ;;
  pret (radio st label options).

Definition st_button (st : Streamlit) (place : container)
    (label type_ : string) (use_container_width : bool) : P bool :=
  render place (Button label type_ use_container_width) ;;
  pret (button st label).

(** [@st.cache_resource]: the value a call returned is kept for the
    process and returned by the later calls without running the body;
    a call that raises leaves nothing behind. *)
Definition cache_resource (body : P ref) : P ref :=
  fun pg =>
    match resource_cache pg with
    | Some cached => (inr cached, pg)
    | None =>
        match body pg with
        | (inr value, pg') => (inr value, with_resource_cache (Some value) pg')
        | (inl h, pg') => (inl h, pg')
        end
    end.

(** [load_model] (lines 86-94). *)
Definition load_model : P ref :=
  cache_resource
    (ptry (run get_model_loader)
       (fun e =>
          render Body (Error [Lit "Error loading model: "; Fmt_exn e]) ;;
          st_stop)).

(** [1 if option == "Yes" else 0] (lines 248 and 256). *)
Definition flag_of_option (option : string) : Z :=
  if String.eqb option "Yes" then 1 else 0.

(** ["Yes" if flag else "No"] (lines 366-367). *)
Definition option_of_flag (flag : Z) : string :=
  if Z.eqb flag 0 then "No" else "Yes".

(** The sidebar of [main] (lines 164-262): the ten local variables it
    leaves behind, under the names they get in [input_data]. *)
Definition sidebar (st : Streamlit) (model_loader : ref)
  : P RawCustomerRecord :=
  render Sidebar (Header "📝 Customer Information") ;;
  render Sidebar (Markdown [Lit "---"] false) ;;
  ohe <- run (getattr model_loader one_hot_encoder "categories_") ;;
  geography <- st_selectbox st Sidebar "🌍 Geography" (categories_ ohe)
                 "Select the customer's country" ;;
  le <- run (getattr model_loader label_encoder_gender "classes_") ;;
  gender <- st_selectbox st Sidebar "👤 Gender" (classes_ le)
              "Select the customer's gender" ;;
  render Sidebar (Markdown [Lit "---"] false) ;;
  age <- st_slider st Sidebar "🎂 Age"
           (UI.min (UI.INPUT_RANGES UI.Age))
           (UI.max (UI.INPUT_RANGES UI.Age))
           (UI.default (UI.INPUT_RANGES UI.Age))
           "Customer's age" ;;
  credit_score <- st_slider st Sidebar "💳 Credit Score"
           (UI.min (UI.INPUT_RANGES UI.CreditScore))
           (UI.max (UI.INPUT_RANGES UI.CreditScore))
           (UI.default (UI.INPUT_RANGES UI.CreditScore))
           "Customer's credit score (300-850)" ;;
  render Sidebar (Markdown [Lit "---"] false) ;;
  balance <- st_number_input st Sidebar "💰 Balance"
           (float_of_Z (UI.min (UI.INPUT_RANGES UI.Balance)))
           (float_of_Z (UI.max (UI.INPUT_RANGES UI.Balance)))
           (float_of_Z (UI.default (UI.INPUT_RANGES UI.Balance)))
           1000%float "%.2f" "Customer's account balance" ;;
  estimated_salary <- st_number_input st Sidebar "💵 Estimated Salary"
           (float_of_Z (UI.min (UI.INPUT_RANGES UI.EstimatedSalary)))
           (float_of_Z (UI.max (UI.INPUT_RANGES UI.EstimatedSalary)))
           (float_of_Z (UI.default (UI.INPUT_RANGES UI.EstimatedSalary)))
           1000%float "%.2f" "Customer's estimated annual salary" ;;
  render Sidebar (Markdown [Lit "---"] false) ;;
  tenure <- st_slider st Sidebar "📅 Tenure (Years)"
           (UI.min (UI.INPUT_RANGES UI.Tenure))
           (UI.max (UI.INPUT_RANGES UI.Tenure))
           (UI.default (UI.INPUT_RANGES UI.Tenure))
           "Number of years the customer has been with the bank" ;;
  num_of_products <- st_slider st Sidebar "📦 Number of Products"
           (UI.min (UI.INPUT_RANGES UI.NumOfProducts))
           (UI.max (UI.INPUT_RANGES UI.NumOfProducts))
           (UI.default (UI.INPUT_RANGES UI.NumOfProducts))
           "Number of bank products the customer uses" ;;
  render Sidebar (Markdown [Lit "---"] false) ;;
  has_cr_card_option <- st_radio st Sidebar "💳 Has Credit Card?" ["Yes"; "No"]
           "Does the customer have a credit card?" ;;
  let has_cr_card := flag_of_option has_cr_card_option in
  is_active_member_option <- st_radio st Sidebar "✅ Is Active Member?" ["Yes"; "No"]
           "Is the customer an active member?" ;;
  let is_active_member := flag_of_option is_active_member_option in
  render Sidebar (Markdown [Lit "---"] false) ;;
  pret {| geography := geography;
          gender := gender;
          age := age;
          credit_score := credit_score;
          balance := balance;
          estimated_salary := estimated_salary;
          tenure := tenure;
          num_of_products := num_of_products;
          has_cr_card := has_cr_card;
          is_active_member := is_active_member |}.

Definition ACTION_REQUIRED : string := "
                        **Action Required:**
                        - Consider offering retention incentives
                        - Schedule a customer success call
                        - Review customer satisfaction metrics
                        - Offer personalized product recommendations
                        - Provide exclusive offers or discounts
                        ".

Definition CUSTOMER_STATUS : string := "
                        **Customer Status:**
                        - Customer shows low churn risk
                        - Continue providing excellent service
                        - Consider upselling opportunities
                        - Maintain regular engagement
                        ".

(** The result card of lines 310-321. *)
Definition result_card (result_class result_color result_icon result_text
    : string) (probability : float) : text :=
  [ Lit ("
                        <div class=" ++ dq ++ "prediction-result ");
    Lit result_class;
    Lit (dq ++ ">
                            <h2 style=" ++ dq ++ "color: ");
    Lit result_color;
    Lit ("; margin-bottom: 1rem;" ++ dq ++ ">
                                ");
    Lit result_icon;
    Lit " ";
    Lit result_text;
    Lit ("
                            </h2>
                            <h3 style=" ++ dq ++ "color: ");
    Lit result_color;
    Lit ("; font-size: 2.5rem; margin: 0;" ++ dq ++ ">
                                ");
    Fmt_float ".2f" (probability * 100)%float;
    Lit "%
                            </h3>
                        </div>
                        " ].

(** The body of [if st.button(...)] (lines 288-348). *)
Definition show_prediction (model_loader input_data : ref) : P unit :=
  render Col1 (Spinner "Analyzing customer data...") ;;
  ptry
    (prediction <- run (predict model_loader input_data) ;;
     let probability := fst prediction in
     let will_churn := snd prediction in
     render Col1 (Markdown [Lit "---"] false) ;;
     render Col1 (Subheader "Churn Probability") ;;
     let fig_gauge := create_probability_gauge probability in
     render Col1 (PlotlyChart fig_gauge true) ;;
     let fig_bar := create_probability_bar probability in
     render Col1 (PlotlyChart fig_bar true) ;;
     let result_class :=
       if will_churn : bool then "churn-high" else "churn-low" in
     let result_icon := if will_churn : bool then "⚠️" else "✅" in
     let result_text :=
       if will_churn : bool
       then "HIGH RISK - Customer is likely to churn"
       else "LOW RISK - Customer is unlikely to churn" in
     let result_color :=
       if will_churn : bool then UI.DANGER_COLOR else UI.SUCCESS_COLOR in
     render Col1
       (Markdown
          (result_card result_class result_color result_icon result_text
             probability) true) ;;
     render Col1 (Markdown [Lit "---"] false) ;;
     render Col1 (Subheader "💡 Recommendations") ;;
     if will_churn : bool
     then render Col1 (Warning ACTION_REQUIRED)
     else render Col1 (Success CUSTOMER_STATUS))
    (fun e =>
       render Col1
         (Error [Lit "An error occurred during prediction: "; Fmt_exn e]) ;;
       render Col1 (Exception e)).

(** The first column of [main] (lines 269-348). *)
Definition prediction_column (st : Streamlit) (model_loader : ref)
    (form : RawCustomerRecord) : P unit :=
  render Col1 (Header "📊 Prediction Results") ;;
  input_data <- run (new_dict form) ;;
  pressed <- st_button st Col1 "🔮 Predict Churn" "primary" true ;;
  if pressed : bool
  then show_prediction model_loader input_data
  else pret tt.

(** The second column of [main] (lines 350-373). *)
Definition summary_column (form : RawCustomerRecord) : P unit :=
  render Col2 (Header "📈 Customer Summary") ;;
  render Col2 (Markdown [Lit "---"] false) ;;
  render Col2 (Metric "Age" [Fmt_int (age form); Lit " years"]) ;;
  render Col2 (Metric "Credit Score" [Fmt_int (credit_score form)]) ;;
  render Col2 (Metric "Balance" [Lit "$"; Fmt_float ",.2f" (balance form)]) ;;
  render Col2
    (Metric "Salary" [Lit "$"; Fmt_float ",.2f" (estimated_salary form)]) ;;
  render Col2 (Metric "Tenure" [Fmt_int (tenure form); Lit " years"]) ;;
  render Col2 (Metric "Products" [Fmt_int (num_of_products form)]) ;;
  render Col2 (Markdown [Lit "---"] false) ;;
  let info_dict :=
    [ ("Geography", geography form);
      ("Gender", gender form);
      ("Credit Card", option_of_flag (has_cr_card form));
      ("Active Member", option_of_flag (is_active_member form)) ] in
  fold_right
    (fun item rest =>
       render Col2 (Text [Lit (fst item); Lit ": "; Lit (snd item)]) ;; rest)
    (pret tt) info_dict.

Definition FOOTER : string := "
        <div style='text-align: center; color: #666; padding: 2rem;'>
            <p>Built with ❤️ using Streamlit and TensorFlow</p>
            <p>Customer Churn Prediction System v1.0</p>
        </div>
        ".

(** [main] (lines 150-386). *)
Definition main (st : Streamlit) : P unit :=
  render Body
    (Markdown
       [Lit ("<h1 class=" ++ dq ++ "main-header" ++ dq ++ ">"); Lit UI.APP_ICON; Lit " "; Lit UI.APP_TITLE; Lit "</h1>"]
       true) ;;
  render Body (Markdown [Lit ("<p class=" ++ dq ++ "sub-header" ++ dq ++ ">Predict customer churn using advanced deep learning models</p>")] true) ;;
  model_loader <- load_model ;;
  form <- sidebar st model_loader ;;
  render Body (Columns [2; 1]%Z) ;;
  prediction_column st model_loader form ;;
  summary_column form ;;
  render Body (Markdown [Lit "---"] false) ;;
  render Body (Markdown [Lit FOOTER] true).

(** The script runs again from the top at every interaction, on a page
    that starts empty. *)
Fixpoint reruns (sts : list Streamlit) (pg : Page) : Page :=
  match sts with
  | [] => pg
  | st :: sts' => reruns sts' (snd (main st (with_screen [] pg)))
  end.

End App.

(* ================================================================== *)
(** ** Vocabulary of the properties of the user interface *)

(** The artifact files in the order [_load_all] reads them. *)
Definition ARTIFACT_PATHS : list path :=
  [MODEL_PATH; LABEL_ENCODER_GENDER_PATH; ONE_HOT_ENCODER_PATH; SCALER_PATH].

(** The file at a path is present and deserializes. *)
Definition stored (d : Disk) (p : path) : bool :=
  match p with
  | MODEL_PATH => match model_h5 d with Stored _ => true | _ => false end
  | LABEL_ENCODER_GENDER_PATH =>
      match label_encoder_gender_pkl d with Stored _ => true | _ => false end
  | ONE_HOT_ENCODER_PATH =>
      match OHE_pkl d with Stored _ => true | _ => false end
  | SCALER_PATH =>
      match scaler_pkl d with Stored _ => true | _ => false end
  end.

(** The file a load error is about. *)
Definition path_of (e : exn) : option path :=
  match e with
  | FileNotFoundError p | OSError p | BadFormat p => Some p
  | _ => None
  end.

(** The page after the script has put [els] on it and done nothing
    else. *)
Definition show (els : list (App.container * App.element)) (pg : App.Page)
  : App.Page :=
  App.with_screen (App.screen pg ++ els) pg.

(** What Streamlit promises about its input widgets: a select box or a
    radio group with options returns one of them, and a slider or number
    input created with a default inside its bounds returns a value
    inside its bounds. *)
Definition obliging (st : App.Streamlit) : Prop :=
  (forall label options,
      options <> [] -> In (App.selectbox st label options) options) /\
  (forall label options,
      options <> [] -> In (App.radio st label options) options) /\
  (forall label lo hi value,
      (lo <= value <= hi)%Z ->
      (lo <= App.slider st label lo hi value <= hi)%Z) /\
  (forall label lo hi value step,
      (lo <=? value)%float = true -> (value <=? hi)%float = true ->
      (lo <=? App.number_input st label lo hi value step)%float = true /\
      (App.number_input st label lo hi value step <=? hi)%float = true).

(** The process can hand [main] the loader object [ml], holding the
    four artifacts: from the cache of [st.cache_resource], from the
    module global, or from the files. *)
Inductive ready (pg : App.Page) (ml : ref) (m : KerasModel)
    (le : LabelEncoder) (ohe : OneHotEncoder) (sc : StandardScaler) : Prop :=
| ready_cached :
    App.resource_cache pg = Some ml ->
    loaders (App.world pg) ml = artifacts m le ohe sc ->
    ready pg ml m le ohe sc
| ready_global :
    App.resource_cache pg = None ->
    _model_loader (App.world pg) = Some ml ->
    loaders (App.world pg) ml = artifacts m le ohe sc ->
    ready pg ml m le ohe sc
| ready_on_disk :
    App.resource_cache pg = None ->
    _model_loader (App.world pg) = None ->
    disk (App.world pg) =
      {| model_h5 := Stored m; label_encoder_gender_pkl := Stored le;
         OHE_pkl := Stored ohe; scaler_pkl := Stored sc |} ->
    ml = next_ref (App.world pg) ->
    ready pg ml m le ohe sc.

(** What a run of the script leaves alone once the loader is cached:
    the two caches, the loader objects, the files, and the list of files
    opened so far. *)
Definition keeps (pg pg' : App.Page) : Prop :=
  App.resource_cache pg' = App.resource_cache pg /\
  _model_loader (App.world pg') = _model_loader (App.world pg) /\
  loaders (App.world pg') = loaders (App.world pg) /\
  disk (App.world pg') = disk (App.world pg) /\
  opened (trace (App.world pg')) = opened (trace (App.world pg)).

(** The values the widgets of the sidebar return, under the names
    [main] gives them. *)
Definition answers (st : App.Streamlit) (le : LabelEncoder)
    (ohe : OneHotEncoder) : RawCustomerRecord :=
  {| geography := App.selectbox st "🌍 Geography" (categories_ ohe);
     gender := App.selectbox st "👤 Gender" (classes_ le);
     age := App.slider st "🎂 Age" 18 100 40;
     credit_score := App.slider st "💳 Credit Score" 300 850 650;
     balance := App.number_input st "💰 Balance" 0 250000 0 1000;
     estimated_salary :=
       App.number_input st "💵 Estimated Salary" 0 200000 50000 1000;
     tenure := App.slider st "📅 Tenure (Years)" 0 10 5;
     num_of_products := App.slider st "📦 Number of Products" 1 4 1;
     has_cr_card :=
       App.flag_of_option
         (App.radio st "💳 Has Credit Card?" ["Yes"; "No"]%string);
     is_active_member :=
       App.flag_of_option
         (App.radio st "✅ Is Active Member?" ["Yes"; "No"]%string) |}.

(** The last two elements of the page. *)
Definition footer : list (App.container * App.element) :=
  [ (App.Body, App.Markdown [App.Lit "---"] false);
    (App.Body, App.Markdown [App.Lit App.FOOTER] true) ].

Definition is_chart (item : App.container * App.element) : bool :=
  match snd item with App.PlotlyChart _ _ => true | _ => false end.

Definition is_widget (item : App.container * App.element) : bool :=
  match snd item with
  | App.Selectbox _ _ _ | App.Slider _ _ _ _ _
  | App.NumberInput _ _ _ _ _ _ _ | App.Radio _ _ _
  | App.Button _ _ _ => true
  | _ => false
  end.

Module Demo.

(** A visitor who leaves every widget as it comes up, and presses the
    button or not. *)
Definition visitor (presses : bool) : App.Streamlit :=
  {| App.selectbox := fun _ options => hd ""%string options;
     App.slider := fun _ _ _ value => value;
     App.number_input := fun _ _ _ value _ => value;
     App.radio := fun _ options => hd ""%string options;
     App.button := fun _ => presses |}.

(** The page at the start of the first run. *)
Definition first_run (d : Disk) : App.Page :=
  {| App.world := Example.boot d; App.resource_cache := None;
     App.screen := [] |}.

(** The page after a first run on the good installation. *)
Definition served : App.Page :=
  snd (App.main (visitor true) (first_run Example.good_disk)).

(** The probability that first run showed. *)
Definition probability : float :=
  match fst (predict 0 1 (App.world served)) with
  | inr (p, _) => p
  | inl _ => 0%float
  end.

(** A customer whose gender and country are both unknown to the
    encoders. *)
Definition outsider : RawCustomerRecord :=
  {| geography := "Italy"; gender := "Other"; age := 40;
     credit_score := 650; balance := 0; estimated_salary := 50000;
     tenure := 5; num_of_products := 1; has_cr_card := 1;
     is_active_member := 1 |}.

(** The running process with that customer's dictionary at reference 1. *)
Definition asked : World := snd (new_dict outsider Example.running).

(** A scaler fitted on eleven columns instead of twelve. *)
Definition short_scaler : StandardScaler :=
  {| mean_ := [650.5; 0.5; 38.75; 5; 76485.5; 1.5; 0.75; 0.5; 100090.25;
               0.5; 0.25]%float;
     scale_ := [96.5; 0.5; 10.5; 2.875; 62397.5; 0.5; 0.5; 0.5; 57510.5;
                0.5; 0.5]%float |}.

(** The running process with that scaler in the loader object. *)
Definition misfitted : World :=
  with_loaders
    (fun _ => artifacts Example.the_model Example.gender_encoder
                Example.geo_encoder short_scaler)
    Example.running.

End Demo.
(* ================================================================== *)
(** ** Traces and frames *)

Lemma log_nil (w : World) : log [] w = w.
Proof.
  destruct w; unfold log, with_trace; cbn. now rewrite app_nil_r.
Qed.

Lemma log_log (e1 e2 : list event) (w : World) :
  log e2 (log e1 w) = log (e1 ++ e2) w.
Proof.
  unfold log, with_trace; cbn. now rewrite app_assoc.
Qed.

Lemma emit_log (ev : event) (w : World) : emit ev w = (inr tt, log [ev] w).
Proof. reflexivity. Qed.

Create HintDb agree.

Section Agree.

Variables self1 input1 self2 input2 : ref.

Local Notation "c1 ~~ c2" := (agree self1 input1 self2 input2 c1 c2)
  (at level 70).

Lemma agree_lift {A : Type} (r : exn + A) : lift r ~~ lift r.
Proof.
  intros w1 w2 _ _. exists r, []. unfold lift. now rewrite !log_nil.
Qed.

Lemma agree_ret {A : Type} (a : A) : ret a ~~ ret a.
Proof. apply (agree_lift (inr a)). Qed.

Lemma agree_raise {A : Type} (e : exn) : @raise A e ~~ raise e.
Proof. apply (agree_lift (inl e)). Qed.

Lemma agree_emit (ev : event) : is_open ev = false -> emit ev ~~ emit ev.
Proof.
  intros H w1 w2 _ _. exists (inr tt), [ev]. rewrite !emit_log.
  unfold opened. cbn. now rewrite H.
Qed.

Lemma agree_getattr {A : Type} (field : ModelLoader -> option A)
    (meth : string) :
  getattr self1 field meth ~~ getattr self2 field meth.
Proof.
  intros w1 w2 Hl _. unfold getattr. rewrite <- Hl.
  destruct (field (loaders w1 self1)) as [a|].
  - exists (inr a), []. now rewrite !log_nil.
  - exists (inl (AttributeError meth)), []. now rewrite !log_nil.
Qed.

Lemma agree_getitem {A : Type} (key : RawCustomerRecord -> A) :
  getitem input1 key ~~ getitem input2 key.
Proof.
  intros w1 w2 _ Hd. unfold getitem. rewrite <- Hd.
  exists (inr (key (dicts w1 input1))), []. now rewrite !log_nil.
Qed.

Lemma agree_bind {A B : Type} (c1 c2 : M A) (k1 k2 : A -> M B) :
  c1 ~~ c2 -> (forall a, k1 a ~~ k2 a) -> bind c1 k1 ~~ bind c2 k2.
Proof.
  intros Hc Hk w1 w2 Hl Hd.
  destruct (Hc w1 w2 Hl Hd) as (res & evs & E1 & E2 & Ho).
  unfold bind. rewrite E1, E2.
  destruct res as [e|a].
  - now exists (inl e), evs.
  - destruct (Hk a (log evs w1) (log evs w2) Hl Hd)
      as (res' & evs' & F1 & F2 & Ho').
    exists res', (evs ++ evs'). rewrite F1, F2, !log_log.
    unfold opened in *. now rewrite filter_app, Ho, Ho'.
Qed.

Lemma agree_try_except {A : Type} (b1 b2 : M A) (h1 h2 : exn -> M A) :
  b1 ~~ b2 -> (forall e, h1 e ~~ h2 e) ->
  try_except b1 h1 ~~ try_except b2 h2.
Proof.
  intros Hc Hh w1 w2 Hl Hd.
  destruct (Hc w1 w2 Hl Hd) as (res & evs & E1 & E2 & Ho).
  unfold try_except. rewrite E1, E2.
  destruct res as [e|a].
  - destruct (Hh e (log evs w1) (log evs w2) Hl Hd)
      as (res' & evs' & F1 & F2 & Ho').
    exists res', (evs ++ evs'). rewrite F1, F2, !log_log.
    unfold opened in *. now rewrite filter_app, Ho, Ho'.
  - now exists (inr a), evs.
Qed.

Lemma agree_invoke {A : Type} (c : component) (r : exn + A) :
  invoke c r ~~ invoke c r.
Proof.
  apply agree_bind; [now apply agree_emit|]. intros _. apply agree_lift.
Qed.

Lemma agree_log_error (msg : string) (e : exn) :
  emit (LogError msg e) ~~ emit (LogError msg e).
Proof. now apply agree_emit. Qed.

#[local] Hint Resolve agree_ret agree_raise agree_lift agree_log_error
  agree_getattr agree_getitem agree_invoke : agree.

Ltac agreeing :=
  repeat first
    [ solve [ auto with agree ]
    | progress cbv zeta
    | apply agree_bind; [ | intro ]
    | apply agree_try_except; [ | intro ] ].

Lemma agree_assemble : assemble self1 input1 ~~ assemble self2 input2.
Proof. unfold assemble. agreeing. Qed.

Lemma agree_feature_vector :
  feature_vector self1 input1 ~~ feature_vector self2 input2.
Proof. unfold feature_vector. pose proof agree_assemble. agreeing. Qed.

Lemma agree_predict : predict self1 input1 ~~ predict self2 input2.
Proof. unfold predict. pose proof agree_feature_vector. agreeing. Qed.

End Agree.

(** In one world: a computation that agrees with itself only emits,
    and opens no file. *)
Lemma agree_frame {A : Type} (self input_data : ref) (c : M A) (w : World) :
  agree self input_data self input_data c c ->
  exists res evs, c w = (res, log evs w) /\ opened evs = [].
Proof.
  intros H. destruct (H w w eq_refl eq_refl) as (res & evs & E & _ & Ho).
  now exists res, evs.
Qed.

(* ================================================================== *)
(** ** Running the pipeline on a loaded store *)

Lemma assemble_loaded w self input_data m le ohe sc :
  loaders w self = artifacts m le ohe sc ->
  assemble self input_data w =
    let r := dicts w input_data in
    match LabelEncoder_transform le (gender r) with
    | inl e => (inl e, log [Invoke GenderEncoder] w)
    | inr code =>
        match OneHotEncoder_transform ohe (geography r) with
        | inl e =>
            (inl e, log [Invoke GenderEncoder; Invoke GeographyEncoder] w)
        | inr geo =>
            (inr ([ ("CreditScore"%string, CInt (credit_score r));
                    ("Gender"%string, CInt code);
                    ("Age"%string, CInt (age r));
                    ("Tenure"%string, CInt (tenure r));
                    ("Balance"%string, CFloat (balance r));
                    ("NumOfProducts"%string, CInt (num_of_products r));
                    ("HasCrCard"%string, CInt (has_cr_card r));
                    ("IsActiveMember"%string, CInt (is_active_member r));
                    ("EstimatedSalary"%string, CFloat (estimated_salary r)) ]
                  ++ combine (get_feature_names_out ohe "Geography")
                             (map CFloat geo)),
             log [Invoke GenderEncoder; Invoke GeographyEncoder] w)
        end
    end.
Proof.
  intros H.
  unfold assemble, bind, getitem, getattr, invoke, bind, emit, lift, ret; cbn.
  rewrite H; cbn.
  destruct (LabelEncoder_transform le _) as [e|code]; [reflexivity|].
  rewrite H; cbn.
  destruct (OneHotEncoder_transform ohe _) as [e|geo]; cbn.
  - unfold log, with_trace; cbn. now rewrite <- app_assoc.
  - rewrite H; cbn. unfold log, with_trace; cbn. now rewrite <- app_assoc.
Qed.

Lemma feature_vector_loaded w self input_data m le ohe sc :
  loaders w self = artifacts m le ohe sc ->
  feature_vector self input_data w =
    match assemble self input_data w with
    | (inl e, w') => (inl e, w')
    | (inr df, w') =>
        (StandardScaler_transform sc (values df), log [Invoke Scaler] w')
    end.
Proof.
  intros H. unfold feature_vector, bind at 1.
  destruct (agree_assemble self input_data self input_data w w
              eq_refl eq_refl) as (res & evs & E & _).
  rewrite E. destruct res as [e|df]; [reflexivity|].
  unfold bind, getattr, invoke, bind, emit, lift; cbn. now rewrite H.
Qed.

Lemma predict_loaded w self input_data m le ohe sc :
  loaders w self = artifacts m le ohe sc ->
  predict self input_data w =
    match feature_vector self input_data w with
    | (inl e, w') => (inl e, log [LogError "Error during prediction" e] w')
    | (inr df_scaled, w') =>
        match KerasModel_predict m df_scaled with
        | inl e =>
            (inl e,
             log [Invoke Classifier; LogError "Error during prediction" e] w')
        | inr probability =>
            (inr (probability, (0.5 <? probability)%float),
             log [Invoke Classifier] w')
        end
    end.
Proof.
  intros H. unfold predict, try_except, bind at 1.
  destruct (agree_feature_vector self input_data self input_data w w
              eq_refl eq_refl) as (res & evs & E & _).
  rewrite E. destruct res as [e|x]; [reflexivity|].
  unfold bind, getattr, invoke, bind, emit, lift, ret, raise; cbn.
  rewrite H; cbn.
  destruct (KerasModel_predict m x) as [e|p]; cbn; [|reflexivity].
  unfold log, with_trace; cbn. now rewrite <- !app_assoc.
Qed.

(** C8: every call of [predict] either returns a complete result, a
    probability together with the decision derived from it, after calling
    each fitted object exactly once, or raises: the exception that stopped
    the pipeline is logged once and re-raised to the caller, every fitted
    object has been called at most once (nothing is retried), and no
    result is returned. *)
Theorem predict_all_or_nothing self input_data w :
  (exists p,
      predict self input_data w =
        (inr (p, (0.5 <? p)%float), log (map Invoke pipeline) w))
  \/
  (exists e done,
      predict self input_data w =
        (inl e,
         log (map Invoke done ++ [LogError "Error during prediction" e]) w)
      /\ prefix_of done pipeline).
Proof.
  unfold predict, feature_vector, assemble, try_except, bind, getitem, getattr,
    invoke, bind, emit, lift, ret, raise, prefix_of, pipeline.
  destruct (loaders w self) as [[m|] [le|] [ohe|] [sc|]] eqn:Hl.
  all: repeat first
       [ progress (cbn; rewrite ?Hl; cbn)
       | match goal with
         | |- context [match ?x with inl _ => _ | inr _ => _ end] =>
             destruct x eqn:?
         end ].
  all: unfold log, with_trace; cbn; rewrite <- ?app_assoc; cbn.
  all: try (left; eexists; reflexivity).
  all: right; eexists.
  all: first
    [ exists []; split; [reflexivity | eexists; reflexivity]
    | exists [GenderEncoder]; split; [reflexivity | eexists; reflexivity]
    | exists [GenderEncoder; GeographyEncoder]; split;
      [reflexivity | eexists; reflexivity]
    | exists [GenderEncoder; GeographyEncoder; Scaler]; split;
      [reflexivity | eexists; reflexivity]
    | exists pipeline; split; [reflexivity | exists []; reflexivity] ].
Qed.

(* ================================================================== *)
(** ** The encoders and the scaler *)

Lemma index_of_In (v : string) (l : list string) :
  In v l -> exists i, index_of v l = Some i.
Proof.
  induction l as [|c l IH]; cbn; [tauto|].
  intros [->|H].
  - rewrite String.eqb_refl. now exists 0.
  - destruct (String.eqb c v); [now exists 0|].
    destruct (IH H) as [i ->]. now exists (S i).
Qed.

Lemma index_of_nth (v : string) (l : list string) (i : nat) :
  index_of v l = Some i -> nth_error l i = Some v.
Proof.
  revert i. induction l as [|c l IH]; cbn; [discriminate|].
  intros i. destruct (String.eqb_spec c v) as [->|_].
  - intros [= <-]. reflexivity.
  - destruct (index_of v l) as [j|]; [|discriminate].
    intros [= <-]. now apply IH.
Qed.

Lemma existsb_eqb_In (v : string) (l : list string) :
  existsb (String.eqb v) l = true <-> In v l.
Proof.
  rewrite existsb_exists. split.
  - intros (c & Hc & E). apply String.eqb_eq in E. now subst.
  - intros H. exists v. now rewrite String.eqb_refl.
Qed.

Lemma existsb_eqb_not_In (v : string) (l : list string) :
  ~ In v l -> existsb (String.eqb v) l = false.
Proof.
  intros H. destruct (existsb (String.eqb v) l) eqn:E; [|reflexivity].
  now apply existsb_eqb_In in E.
Qed.

Lemma standardize_length (xs mus sigmas : list float) :
  List.length mus = List.length xs ->
  List.length sigmas = List.length xs ->
  List.length (standardize xs mus sigmas) = List.length xs.
Proof.
  revert mus sigmas.
  induction xs as [|x xs IH]; intros [|mu mus] [|sigma sigmas]; cbn;
    try discriminate; try reflexivity.
  intros [= H1] [= H2]. now rewrite IH.
Qed.

Lemma StandardScaler_transform_length (sc : StandardScaler)
    (row out : list float) :
  StandardScaler_transform sc row = inr out ->
  List.length out = List.length row.
Proof.
  unfold StandardScaler_transform.
  destruct (Nat.eqb_spec (List.length row) (List.length (mean_ sc)));
    [|discriminate].
  destruct (Nat.eqb_spec (List.length (scale_ sc)) (List.length (mean_ sc)));
    [|discriminate].
  cbn. intros [= <-]. apply standardize_length; congruence.
Qed.

Lemma StandardScaler_transform_fits (sc : StandardScaler) (row : list float) :
  List.length (mean_ sc) = List.length row ->
  List.length (scale_ sc) = List.length row ->
  StandardScaler_transform sc row =
    inr (standardize row (mean_ sc) (scale_ sc)).
Proof.
  intros H1 H2. unfold StandardScaler_transform.
  now rewrite H1, H2, Nat.eqb_refl.
Qed.

Lemma columns_combine (names : list string) (cells : list cell) :
  List.length names = List.length cells ->
  columns (combine names cells) = names.
Proof.
  revert cells. induction names as [|n names IH]; intros [|c cells]; cbn;
    try discriminate; try reflexivity.
  intros [= H]. unfold columns in IH. now rewrite IH.
Qed.

Lemma values_combine (names : list string) (xs : list float) :
  List.length names = List.length xs ->
  values (combine names (map CFloat xs)) = xs.
Proof.
  revert xs. induction names as [|n names IH]; intros [|x xs]; cbn;
    try discriminate; try reflexivity.
  intros [= H]. unfold values in IH. now rewrite IH.
Qed.

Lemma geography_frame (ohe : OneHotEncoder) (v : string) :
  let geo_encoded_df :=
    combine (get_feature_names_out ohe "Geography")
            (map CFloat (one_hot (categories_ ohe) v)) in
  columns geo_encoded_df =
    map (fun c => ("Geography_" ++ c)%string) (categories_ ohe) /\
  values geo_encoded_df = one_hot (categories_ ohe) v /\
  List.length geo_encoded_df = List.length (categories_ ohe).
Proof.
  cbv zeta. unfold get_feature_names_out, one_hot. repeat split.
  - now rewrite columns_combine by now rewrite !length_map.
  - now rewrite values_combine by now rewrite !length_map.
  - now rewrite length_combine, !length_map, Nat.min_id.
Qed.

(* ================================================================== *)
(** ** The pipeline on in-set and out-of-set records *)

Lemma assemble_in_set w self input_data m le ohe sc r :
  loaders w self = artifacts m le ohe sc ->
  dicts w input_data = r ->
  In (gender r) (classes_ le) ->
  In (geography r) (categories_ ohe) ->
  exists i,
    index_of (gender r) (classes_ le) = Some i /\
    assemble self input_data w =
      (inr ([ ("CreditScore"%string, CInt (credit_score r));
              ("Gender"%string, CInt (Z.of_nat i));
              ("Age"%string, CInt (age r));
              ("Tenure"%string, CInt (tenure r));
              ("Balance"%string, CFloat (balance r));
              ("NumOfProducts"%string, CInt (num_of_products r));
              ("HasCrCard"%string, CInt (has_cr_card r));
              ("IsActiveMember"%string, CInt (is_active_member r));
              ("EstimatedSalary"%string, CFloat (estimated_salary r)) ]
            ++ combine (get_feature_names_out ohe "Geography")
                       (map CFloat (one_hot (categories_ ohe) (geography r)))),
       log [Invoke GenderEncoder; Invoke GeographyEncoder] w).
Proof.
  intros Hl Hd Hg Hc.
  destruct (index_of_In _ _ Hg) as [i Hi]. exists i. split; [exact Hi|].
  rewrite (assemble_loaded w self input_data m le ohe sc Hl).
  cbv zeta. rewrite Hd.
  unfold LabelEncoder_transform, OneHotEncoder_transform.
  rewrite Hi. apply existsb_eqb_In in Hc. now rewrite Hc.
Qed.

(** C3 (as amended): for a record whose gender and geography are in the
    fitted sets, the row [predict] assembles has nine base columns (the
    eight numeric and flag fields and the gender code) and one column per
    fitted geography category, and so has the standardized row whenever
    the scaler accepts it. *)
Theorem feature_vector_width w self input_data m le ohe sc r :
  loaders w self = artifacts m le ohe sc ->
  dicts w input_data = r ->
  In (gender r) (classes_ le) ->
  In (geography r) (categories_ ohe) ->
  exists df,
    fst (assemble self input_data w) = inr df /\
    List.length df = 9 + List.length (categories_ ohe) /\
    forall fv,
      fst (feature_vector self input_data w) = inr fv ->
      List.length fv = 9 + List.length (categories_ ohe).
Proof.
  intros Hl Hd Hg Hc.
  destruct (assemble_in_set w self input_data m le ohe sc r Hl Hd Hg Hc)
    as (i & _ & E).
  destruct (geography_frame ohe (geography r)) as (_ & _ & Hlen).
  eexists. split; [now rewrite E|]. split.
  - rewrite length_app, Hlen. reflexivity.
  - intros fv.
    rewrite (feature_vector_loaded w self input_data m le ohe sc Hl), E.
    cbn [fst].
    intros H. apply StandardScaler_transform_length in H. rewrite H.
    unfold values. rewrite length_map, length_app, Hlen. reflexivity.
Qed.

Lemma feature_vector_width_witness :
  exists df,
    fst (assemble 0 0 Example.running) = inr df /\
    List.length df = 9 + 3 /\
    forall fv,
      fst (feature_vector 0 0 Example.running) = inr fv ->
      List.length fv = 9 + 3.
Proof.
  apply (feature_vector_width Example.running 0 0 Example.the_model
           Example.gender_encoder Example.geo_encoder Example.the_scaler
           Example.customer).
  - reflexivity.
  - reflexivity.
  - cbn. tauto.
  - cbn. tauto.
Defined.

(** C3 (as stated) fails: with three fitted geography categories the
    assembled row has twelve columns, not eight plus three. *)
Lemma feature_vector_width_not_8_plus_categories :
  In (gender Example.customer) (classes_ Example.gender_encoder) /\
  In (geography Example.customer) (categories_ Example.geo_encoder) /\
  exists df,
    fst (assemble 0 0 Example.running) = inr df /\
    List.length df = 12 /\
    List.length df <> 8 + List.length (categories_ Example.geo_encoder).
Proof.
  split; [cbn; tauto|]. split; [cbn; tauto|].
  eexists. split; [vm_compute; reflexivity|]. split; [reflexivity|].
  cbn. discriminate.
Qed.

(** C2: for a record whose gender and geography are in the fitted sets,
    [predict] assembles the columns in the fixed order credit score,
    gender code, age, tenure, balance, number of products, has-credit-card
    flag, is-active-member flag, estimated salary, then the one-hot
    geography columns in the encoder's fitted category order; the scaler
    is applied to that whole row, and the network to the scaler's
    output. *)
Theorem predict_column_order w self input_data m le ohe sc r :
  loaders w self = artifacts m le ohe sc ->
  dicts w input_data = r ->
  In (gender r) (classes_ le) ->
  In (geography r) (categories_ ohe) ->
  exists (i : nat) (df : DataFrame),
    nth_error (classes_ le) i = Some (gender r) /\
    fst (assemble self input_data w) = inr df /\
    columns df =
      [ "CreditScore"; "Gender"; "Age"; "Tenure"; "Balance";
        "NumOfProducts"; "HasCrCard"; "IsActiveMember";
        "EstimatedSalary" ]%string
      ++ map (fun c => ("Geography_" ++ c)%string) (categories_ ohe) /\
    values df =
      [ float_of_Z (credit_score r); float_of_Z (Z.of_nat i);
        float_of_Z (age r); float_of_Z (tenure r); balance r;
        float_of_Z (num_of_products r); float_of_Z (has_cr_card r);
        float_of_Z (is_active_member r); estimated_salary r ]
      ++ map (fun c => if String.eqb c (geography r) then 1%float else 0%float)
             (categories_ ohe) /\
    fst (feature_vector self input_data w) =
      StandardScaler_transform sc (values df) /\
    (List.length (mean_ sc) = List.length df ->
     List.length (scale_ sc) = List.length df ->
     fst (feature_vector self input_data w) =
       inr (standardize (values df) (mean_ sc) (scale_ sc))) /\
    fst (predict self input_data w) =
      match StandardScaler_transform sc (values df) with
      | inl e => inl e
      | inr df_scaled =>
          match KerasModel_predict m df_scaled with
          | inl e => inl e
          | inr p => inr (p, (0.5 <? p)%float)
          end
      end.
Proof.
  intros Hl Hd Hg Hc.
  destruct (assemble_in_set w self input_data m le ohe sc r Hl Hd Hg Hc)
    as (i & Hi & E).
  destruct (geography_frame ohe (geography r)) as (Hcols & Hvals & _).
  match type of E with _ = (inr ?d, _) => set (df := d) in * end.
  assert (Hfv : fst (feature_vector self input_data w) =
                StandardScaler_transform sc (values df)).
  { now rewrite (feature_vector_loaded w self input_data m le ohe sc Hl), E. }
  exists i, df. split; [now apply index_of_nth|].
  split; [now rewrite E|].
  split; [unfold df, columns in *; rewrite map_app, Hcols; reflexivity|].
  split; [unfold df, values in *; rewrite map_app, Hvals; reflexivity|].
  split; [exact Hfv|]. split.
  - intros H1 H2. rewrite Hfv. apply StandardScaler_transform_fits;
      unfold values; now rewrite length_map.
  - rewrite (predict_loaded w self input_data m le ohe sc Hl).
    rewrite (feature_vector_loaded w self input_data m le ohe sc Hl), E.
    destruct (StandardScaler_transform sc (values df)) as [e|x];
      [reflexivity|].
    destruct (KerasModel_predict m x); reflexivity.
Qed.

Lemma predict_column_order_witness :
  exists (i : nat) (df : DataFrame),
    nth_error ["Female"; "Male"]%string i = Some "Male"%string /\
    fst (assemble 0 0 Example.running) = inr df /\
    columns df =
      [ "CreditScore"; "Gender"; "Age"; "Tenure"; "Balance";
        "NumOfProducts"; "HasCrCard"; "IsActiveMember";
        "EstimatedSalary" ]%string
      ++ [ "Geography_France"; "Geography_Germany";
           "Geography_Spain" ]%string /\
    values df =
      [650; float_of_Z (Z.of_nat i); 40; 5; 0; 1; 1; 1; 50000]%float
      ++ [1; 0; 0]%float /\
    fst (feature_vector 0 0 Example.running) =
      StandardScaler_transform Example.the_scaler (values df) /\
    (12 = List.length df -> 12 = List.length df ->
     fst (feature_vector 0 0 Example.running) =
       inr (standardize (values df) (mean_ Example.the_scaler)
              (scale_ Example.the_scaler))) /\
    fst (predict 0 0 Example.running) =
      match StandardScaler_transform Example.the_scaler (values df) with
      | inl e => inl e
      | inr df_scaled =>
          match KerasModel_predict Example.the_model df_scaled with
          | inl e => inl e
          | inr p => inr (p, (0.5 <? p)%float)
          end
      end.
Proof.
  apply (predict_column_order Example.running 0 0 Example.the_model
           Example.gender_encoder Example.geo_encoder Example.the_scaler
           Example.customer).
  - reflexivity.
  - reflexivity.
  - cbn. tauto.
  - cbn. tauto.
Defined.

Lemma the_model_sigmoid : sigmoid_output Example.the_model.
Proof.
  intros xs. unfold in_unit_interval. cbn [forward Example.the_model].
  set (z := (0.5 + 0.125 * fold_left PrimFloat.add xs 0)%float).
  unfold Example.hard_sigmoid.
  destruct (0 <=? z)%float eqn:E0; destruct (z <=? 1)%float eqn:E1;
    cbn [andb]; try (split; assumption);
    destruct (1 <? z)%float; split; reflexivity.
Qed.

Lemma the_artifacts_fitted_together :
  fitted_together Example.the_model Example.geo_encoder Example.the_scaler.
Proof. repeat split. Qed.

(** C1: for a record whose gender and geography are in the fitted sets
    (the artifacts having been fitted together, the network ending in a
    sigmoid-style layer), [predict] returns a probability between 0 and 1
    and the decision [probability > 0.5]; the threshold is the constant
    0.5, whatever the call, and a probability of exactly 0.5 gives the
    decision false. *)
Theorem predict_probability_and_decision w self input_data m le ohe sc r :
  loaders w self = artifacts m le ohe sc ->
  dicts w input_data = r ->
  fitted_together m ohe sc ->
  sigmoid_output m ->
  In (gender r) (classes_ le) ->
  In (geography r) (categories_ ohe) ->
  exists (probability : float) (will_churn : bool),
    fst (predict self input_data w) = inr (probability, will_churn) /\
    in_unit_interval probability /\
    will_churn = (CHURN_THRESHOLD <? probability)%float /\
    (probability = 0.5%float -> will_churn = false).
Proof.
  intros Hl Hd (Hmu & Hsigma & Hwidth) Hrange Hg Hc.
  destruct (assemble_in_set w self input_data m le ohe sc r Hl Hd Hg Hc)
    as (i & _ & E).
  destruct (geography_frame ohe (geography r)) as (_ & _ & Hlen).
  match type of E with _ = (inr ?d, _) => set (df := d) in * end.
  assert (Hdf : List.length (values df) = 9 + List.length (categories_ ohe)).
  { unfold values, df. rewrite length_map, length_app, Hlen. reflexivity. }
  rewrite (predict_loaded w self input_data m le ohe sc Hl).
  rewrite (feature_vector_loaded w self input_data m le ohe sc Hl), E.
  rewrite StandardScaler_transform_fits by congruence.
  unfold KerasModel_predict.
  rewrite standardize_length, Hdf, Hwidth, Nat.eqb_refl by congruence.
  cbn [fst]. eexists. eexists. split; [reflexivity|].
  split; [apply Hrange|]. split; [reflexivity|].
  intros ->. reflexivity.
Qed.

Lemma predict_probability_and_decision_witness :
  exists (probability : float) (will_churn : bool),
    fst (predict 0 0 Example.running) = inr (probability, will_churn) /\
    in_unit_interval probability /\
    will_churn = (CHURN_THRESHOLD <? probability)%float /\
    (probability = 0.5%float -> will_churn = false).
Proof.
  apply (predict_probability_and_decision Example.running 0 0
           Example.the_model Example.gender_encoder Example.geo_encoder
           Example.the_scaler Example.customer).
  - reflexivity.
  - reflexivity.
  - exact the_artifacts_fitted_together.
  - exact the_model_sigmoid.
  - cbn. tauto.
  - cbn. tauto.
Defined.

(** Section 4.3 of the specification: no clamping is applied beyond what
    the classifier itself guarantees.  With a network whose last layer is
    linear, [predict] hands its output on as it is. *)
Example predict_does_not_clamp :
  fst (predict 0 0
         (with_loaders
            (fun _ => artifacts Example.linear_model Example.gender_encoder
                        Example.geo_encoder Example.the_scaler)
            Example.running))
  = inr (2%float, true).
Proof. vm_compute. reflexivity. Qed.

(** C4: for a record whose gender or geography is outside the fitted
    set, [predict] raises the encoder's unseen-category error and returns
    no result; nothing is substituted for the unknown value, and neither
    the scaler nor the network is called. *)
Theorem predict_unseen_category w self input_data m le ohe sc r :
  loaders w self = artifacts m le ohe sc ->
  dicts w input_data = r ->
  ~ In (gender r) (classes_ le) \/ ~ In (geography r) (categories_ ohe) ->
  exists e evs,
    predict self input_data w = (inl e, log evs w) /\
    classify e = Some EncodingError /\
    (e = UnseenLabel (gender r) \/ e = UnknownCategory (geography r)) /\
    ~ In (Invoke Scaler) evs /\
    ~ In (Invoke Classifier) evs.
Proof.
  intros Hl Hd Hout.
  rewrite (predict_loaded w self input_data m le ohe sc Hl).
  rewrite (feature_vector_loaded w self input_data m le ohe sc Hl).
  rewrite (assemble_loaded w self input_data m le ohe sc Hl).
  cbv zeta. rewrite Hd. unfold LabelEncoder_transform.
  destruct (index_of (gender r) (classes_ le)) as [i|] eqn:Hi.
  - assert (Hc : ~ In (geography r) (categories_ ohe)).
    { destruct Hout as [Hg|Hc]; [|exact Hc].
      exfalso. apply Hg. apply index_of_nth in Hi.
      now apply nth_error_In in Hi. }
    unfold OneHotEncoder_transform. rewrite (existsb_eqb_not_In _ _ Hc).
    exists (UnknownCategory (geography r)). eexists.
    rewrite log_log. split; [reflexivity|]. split; [reflexivity|].
    split; [now right|]. cbn. split; intros [H|[H|[H|[]]]]; discriminate.
  - exists (UnseenLabel (gender r)). eexists.
    rewrite log_log. split; [reflexivity|]. split; [reflexivity|].
    split; [now left|]. cbn. split; intros [H|[H|[]]]; discriminate.
Qed.

Lemma predict_unseen_category_witness :
  exists e evs,
    predict 0 1 (snd (new_dict Example.stranger Example.running)) =
      (inl e, log evs (snd (new_dict Example.stranger Example.running))) /\
    classify e = Some EncodingError /\
    (e = UnseenLabel "Male" \/ e = UnknownCategory "Italy") /\
    ~ In (Invoke Scaler) evs /\
    ~ In (Invoke Classifier) evs.
Proof.
  apply (predict_unseen_category
           (snd (new_dict Example.stranger Example.running)) 0 1
           Example.the_model Example.gender_encoder Example.geo_encoder
           Example.the_scaler Example.stranger).
  - reflexivity.
  - reflexivity.
  - right. cbn. intros [H|[H|[H|[]]]]; discriminate.
Defined.

(** C5: two runs of [predict] on records with identical contents,
    against loader objects with identical contents, give identical
    feature vectors and identical results, whatever else differs between
    the two worlds (the log, the cache, the files, other objects). *)
Theorem predict_deterministic self1 input1 w1 self2 input2 w2 :
  loaders w1 self1 = loaders w2 self2 ->
  dicts w1 input1 = dicts w2 input2 ->
  fst (assemble self1 input1 w1) = fst (assemble self2 input2 w2) /\
  fst (feature_vector self1 input1 w1) =
    fst (feature_vector self2 input2 w2) /\
  fst (predict self1 input1 w1) = fst (predict self2 input2 w2).
Proof.
  intros Hl Hd. repeat split.
  - destruct (agree_assemble self1 input1 self2 input2 w1 w2 Hl Hd)
      as (res & evs & -> & -> & _). reflexivity.
  - destruct (agree_feature_vector self1 input1 self2 input2 w1 w2 Hl Hd)
      as (res & evs & -> & -> & _). reflexivity.
  - destruct (agree_predict self1 input1 self2 input2 w1 w2 Hl Hd)
      as (res & evs & -> & -> & _). reflexivity.
Qed.

(** The second run is the call that follows the first in the same
    process. *)
Lemma predict_deterministic_witness :
  fst (assemble 0 0 Example.running) =
    fst (assemble 0 0 (snd (predict 0 0 Example.running))) /\
  fst (feature_vector 0 0 Example.running) =
    fst (feature_vector 0 0 (snd (predict 0 0 Example.running))) /\
  fst (predict 0 0 Example.running) =
    fst (predict 0 0 (snd (predict 0 0 Example.running))).
Proof.
  apply (predict_deterministic 0 0 Example.running
           0 0 (snd (predict 0 0 Example.running))).
  - reflexivity.
  - reflexivity.
Defined.

(** C9: a call of [predict], successful or not, leaves the loader
    objects (network, encoders, scaler), the input dictionaries, the
    artifact files and the module global as they were; all it adds to
    the world are the records of the calls it made and, on failure, of
    the error it logged; and its result is a function of the contents
    of the loader object and of the input dictionary alone. *)
Theorem predict_no_side_effects self input_data w :
  exists res w' evs,
    predict self input_data w = (res, w') /\
    loaders w' = loaders w /\
    dicts w' = dicts w /\
    disk w' = disk w /\
    _model_loader w' = _model_loader w /\
    next_ref w' = next_ref w /\
    trace w' = trace w ++ evs /\
    opened evs = [] /\
    forall self2 input2 w2,
      loaders w2 self2 = loaders w self ->
      dicts w2 input2 = dicts w input_data ->
      fst (predict self2 input2 w2) = res.
Proof.
  destruct (agree_frame self input_data (predict self input_data) w
              (agree_predict self input_data self input_data))
    as (res & evs & E & Hopen).
  exists res, (log evs w), evs. rewrite E.
  repeat (split; [reflexivity|]). split; [exact Hopen|].
  intros self2 input2 w2 Hl Hd.
  destruct (agree_predict self2 input2 self input_data w2 w Hl Hd)
    as (res' & evs' & -> & E' & _). rewrite E in E'. now injection E' as <- _.
Qed.

(* ================================================================== *)
(** ** Loading and the module global *)

Lemma upd_same {A : Type} (f : ref -> A) (l : ref) (a : A) : upd f l a l = a.
Proof. unfold upd. now rewrite Nat.eqb_refl. Qed.

Lemma upd_other {A : Type} (f : ref -> A) (l k : ref) (a : A) :
  k <> l -> upd f l a k = f k.
Proof. intros H. unfold upd. now apply Nat.eqb_neq in H as ->. Qed.

(** The frame of a load, once the files read so far are known. *)
Ltac load_frame :=
  do 3 eexists; split; [reflexivity|]; cbn; rewrite <- ?app_assoc; cbn;
  repeat (split;
          [ first [ reflexivity
                  | assumption
                  | intros l Hl; now rewrite ?upd_other by exact Hl
                  | intros c Hin;
                    repeat (destruct Hin as [Hin|Hin]; [discriminate|]);
                    destruct Hin ] | ]).

Ltac load_fails :=
  load_frame; repeat split; eexists;
  first [ exists []; reflexivity
        | eexists [_]; reflexivity
        | eexists [_; _]; reflexivity
        | eexists [_; _; _]; reflexivity ].

Lemma ModelLoader_new_spec w :
  exists res w' evs,
    ModelLoader_new w = (res, w') /\
    trace w' =
      trace w ++ LogInfo "Loading model and preprocessors..."
                 :: Open MODEL_PATH :: evs /\
    disk w' = disk w /\
    dicts w' = dicts w /\
    _model_loader w' = _model_loader w /\
    next_ref w' = S (next_ref w) /\
    (forall l, l <> next_ref w -> loaders w' l = loaders w l) /\
    (forall c, ~ In (Invoke c) evs) /\
    match res with
    | inr self =>
        self = next_ref w /\
        intact (disk w) = true /\
        opened evs =
          [Open LABEL_ENCODER_GENDER_PATH; Open ONE_HOT_ENCODER_PATH;
           Open SCALER_PATH] /\
        exists m le ohe sc,
          disk w = {| model_h5 := Stored m;
                      label_encoder_gender_pkl := Stored le;
                      OHE_pkl := Stored ohe;
                      scaler_pkl := Stored sc |} /\
          loaders w' self = artifacts m le ohe sc
    | inl e =>
        intact (disk w) = false /\
        classify e = Some LoadError /\
        exists msg pre, evs = pre ++ [LogError msg e]
    end.
Proof.
  unfold ModelLoader_new, __init__, _load_all, load_model, pickle_load,
    try_except, bind, new_object, setattr, emit, ret, raise, intact.
  destruct (disk w) as [fm fle fohe fsc] eqn:Hd. cbn. rewrite ?Hd. cbn.
  destruct fm as [| | |m]; cbn; [load_fails ..|].
  rewrite ?Hd; cbn. destruct fle as [| | |le]; cbn; [load_fails ..|].
  rewrite ?Hd; cbn. destruct fohe as [| | |ohe]; cbn; [load_fails ..|].
  rewrite ?Hd; cbn. destruct fsc as [| | |sc]; cbn; [load_fails ..|].
  load_frame. exists m, le, ohe, sc. split; [reflexivity|].
  now rewrite !upd_same.
Qed.

Lemma get_model_loader_cached w self :
  _model_loader w = Some self -> get_model_loader w = (inr self, w).
Proof.
  intros H. unfold get_model_loader, bind, get_global, ret. now rewrite H.
Qed.

Lemma get_model_loader_empty w :
  _model_loader w = None ->
  get_model_loader w =
    match ModelLoader_new w with
    | (inl e, w') => (inl e, w')
    | (inr self, w') => (inr self, with_global (Some self) w')
    end.
Proof.
  intros H. unfold get_model_loader, bind, get_global, set_global, ret.
  rewrite H. now destruct (ModelLoader_new w) as [[e|self] w'].
Qed.

Lemma get_model_loader_caches w self w1 :
  get_model_loader w = (inr self, w1) -> _model_loader w1 = Some self.
Proof.
  destruct (_model_loader w) as [cached|] eqn:Hc.
  - rewrite (get_model_loader_cached w cached Hc). now intros [= <- <-].
  - rewrite (get_model_loader_empty w Hc).
    destruct (ModelLoader_new w) as [[e|s] w']; [discriminate|].
    now intros [= <- <-].
Qed.

Lemma app_predict_cached w self r :
  _model_loader w = Some self ->
  exists res evs,
    app_predict r w =
      (res, log evs (snd (new_dict r w))) /\
    opened evs = [].
Proof.
  intros Hc. unfold app_predict, bind at 1.
  rewrite (get_model_loader_cached w self Hc).
  unfold bind, new_dict. cbn [snd].
  match goal with |- context [predict self ?d ?w0] =>
    destruct (agree_frame self d (predict self d) w0
                (agree_predict self d self d)) as (res & evs & -> & Hopen)
  end.
  now exists res, evs.
Qed.

Lemma serve_cached q w self :
  _model_loader w = Some self ->
  exists a w',
    serve q w = (a, w') /\
    answers_with self a /\
    _model_loader w' = Some self /\
    loaders w' = loaders w /\
    disk w' = disk w /\
    opened (trace w') = opened (trace w).
Proof.
  intros Hc. destruct q as [|r]; cbn [serve].
  - rewrite (get_model_loader_cached w self Hc).
    exists (Loader (inr self)), w. repeat split; assumption.
  - destruct (app_predict_cached w self r Hc) as (res & evs & -> & Hopen).
    eexists. eexists. split; [reflexivity|]. cbn.
    repeat (split; [first [exact I | assumption | reflexivity]|]).
    unfold opened in *. now rewrite filter_app, Hopen, app_nil_r.
Qed.

(** C6: once [get_model_loader] has returned an instance, every later
    [get_model_loader] call of the process, whatever prediction requests
    are served in between, returns that same instance; the module global
    keeps pointing at it, no artifact file is opened again, and the
    loader objects (network, encoders, scaler) stay exactly as loaded. *)
Theorem singleton_after_first_load w self w1 qs :
  get_model_loader w = (inr self, w1) ->
  exists answers w2,
    session qs w1 = (answers, w2) /\
    Forall (answers_with self) answers /\
    _model_loader w2 = Some self /\
    loaders w2 = loaders w1 /\
    disk w2 = disk w1 /\
    opened (trace w2) = opened (trace w1).
Proof.
  intros H. apply get_model_loader_caches in H. clear w.
  revert w1 H. induction qs as [|q qs IH]; intros w Hc; cbn [session].
  - exists [], w. repeat split; [constructor | assumption].
  - destruct (serve_cached q w self Hc)
      as (a & w1 & -> & Ha & Hc1 & Hl1 & Hd1 & Ho1).
    destruct (IH w1 Hc1) as (rest & w2 & -> & Hr & Hc2 & Hl2 & Hd2 & Ho2).
    exists (a :: rest), w2. split; [reflexivity|].
    split; [now constructor|]. split; [assumption|].
    repeat split; congruence.
Qed.

Lemma singleton_after_first_load_witness :
  exists answers w2,
    session [Get; Predict Example.customer; Get; Predict Example.stranger; Get]
            Example.running = (answers, w2) /\
    Forall (answers_with 0) answers /\
    _model_loader w2 = Some 0 /\
    loaders w2 = loaders Example.running /\
    disk w2 = disk Example.running /\
    opened (trace w2) = opened (trace Example.running).
Proof.
  refine (singleton_after_first_load (Example.boot Example.good_disk) 0
           Example.running
           [Get; Predict Example.customer; Get; Predict Example.stranger; Get]
           _).
  vm_compute. reflexivity.
Defined.

(** C7: when an artifact file is missing, unreadable or does not
    deserialize, loading fails with a load error: [get_model_loader]
    logs it and re-raises it, returns no instance and leaves the module
    global unset; a prediction request made in that state stops at the
    load with that same error, before [predict] is entered and before any
    fitted object is called. *)
Theorem load_failure_propagates w r :
  _model_loader w = None ->
  intact (disk w) = false ->
  exists e w' msg pre,
    get_model_loader w = (inl e, w') /\
    classify e = Some LoadError /\
    _model_loader w' = None /\
    trace w' = trace w ++ pre ++ [LogError msg e] /\
    (forall c, ~ In (Invoke c) (pre ++ [LogError msg e])) /\
    app_predict r w = (inl e, w').
Proof.
  intros Hc Hbad.
  destruct (ModelLoader_new_spec w)
    as (res & w' & evs & E & Ht & _ & _ & Hc' & _ & _ & Hinv & Hres).
  assert (G : get_model_loader w =
              match res with
              | inl e => (inl e, w')
              | inr self => (inr self, with_global (Some self) w')
              end).
  { rewrite (get_model_loader_empty w Hc), E. now destruct res. }
  destruct res as [e|self].
  - destruct Hres as (_ & Hclass & msg & pre & ->).
    exists e, w', msg,
      (LogInfo "Loading model and preprocessors..." :: Open MODEL_PATH :: pre).
    split; [exact G|]. split; [exact Hclass|].
    split; [congruence|]. split; [exact Ht|]. split.
    + intros c [H|[H|H]]; try discriminate. exact (Hinv c H).
    + unfold app_predict, bind. now rewrite G.
  - destruct Hres as (_ & Hok & _). congruence.
Qed.

Lemma load_failure_propagates_witness :
  exists e w' msg pre,
    get_model_loader (Example.boot Example.broken_disk) = (inl e, w') /\
    classify e = Some LoadError /\
    _model_loader w' = None /\
    trace w' = trace (Example.boot Example.broken_disk)
               ++ pre ++ [LogError msg e] /\
    (forall c, ~ In (Invoke c) (pre ++ [LogError msg e])) /\
    app_predict Example.customer (Example.boot Example.broken_disk) =
      (inl e, w').
Proof.
  refine (load_failure_propagates (Example.boot Example.broken_disk)
            Example.customer _ _).
  - reflexivity.
  - reflexivity.
Defined.

Lemma with_disk_same w : with_disk (disk w) w = w.
Proof. now destruct w. Qed.

Lemma get_model_loader_retry w d :
  _model_loader w = None ->
  exists res w2 evs,
    get_model_loader (with_disk d w) = (res, w2) /\
    trace w2 =
      trace w ++ LogInfo "Loading model and preprocessors..."
                 :: Open MODEL_PATH :: evs /\
    match res with
    | inl e' =>
        intact d = false /\
        classify e' = Some LoadError /\
        _model_loader w2 = None
    | inr self =>
        intact d = true /\
        _model_loader w2 = Some self /\
        opened evs =
          [Open LABEL_ENCODER_GENDER_PATH; Open ONE_HOT_ENCODER_PATH;
           Open SCALER_PATH] /\
        exists m le ohe sc,
          d = {| model_h5 := Stored m;
                 label_encoder_gender_pkl := Stored le;
                 OHE_pkl := Stored ohe;
                 scaler_pkl := Stored sc |} /\
          loaders w2 self = artifacts m le ohe sc
    end.
Proof.
  intros Hc.
  destruct (ModelLoader_new_spec (with_disk d w))
    as (res & w2 & evs & E & Ht & _ & _ & Hc2 & _ & _ & _ & Hres).
  rewrite (get_model_loader_empty (with_disk d w) Hc), E.
  destruct res as [e'|self].
  - exists (inl e'), w2, evs. split; [reflexivity|]. split; [exact Ht|].
    destruct Hres as (Hbad & Hclass & _).
    repeat split; [exact Hbad | exact Hclass | cbn in Hc2; congruence].
  - exists (inr self), (with_global (Some self) w2), evs.
    split; [reflexivity|]. split; [exact Ht|].
    destruct Hres as (_ & Hok & Hopen & m & le & ohe & sc & Hd & Hl).
    repeat split; [exact Hok | exact Hopen |].
    exists m, le, ohe, sc. split; [exact Hd | exact Hl].
Qed.

(** C10: when a [get_model_loader] call fails, the module global is
    still None afterwards: the half-initialized object is not cached.
    The next call therefore starts the load from the first file again
    and, the files being as they were, fails again with a load error;
    and whatever has become of the files by then, the call opens the
    first file again, fails with a load error and caches nothing while a
    file is bad, and loads all four and caches a fully initialized
    instance once they are all in place. *)
Theorem failed_load_is_not_cached w e w1 :
  get_model_loader w = (inl e, w1) ->
  _model_loader w1 = None /\
  (exists e' w2 evs,
      get_model_loader w1 = (inl e', w2) /\
      classify e' = Some LoadError /\
      _model_loader w2 = None /\
      trace w2 =
        trace w1 ++ LogInfo "Loading model and preprocessors..."
                    :: Open MODEL_PATH :: evs) /\
  forall d,
    exists res w2 evs,
      get_model_loader (with_disk d w1) = (res, w2) /\
      trace w2 =
        trace w1 ++ LogInfo "Loading model and preprocessors..."
                    :: Open MODEL_PATH :: evs /\
      match res with
      | inl e' =>
          intact d = false /\
          classify e' = Some LoadError /\
          _model_loader w2 = None
      | inr self =>
          intact d = true /\
          _model_loader w2 = Some self /\
          opened evs =
            [Open LABEL_ENCODER_GENDER_PATH; Open ONE_HOT_ENCODER_PATH;
             Open SCALER_PATH] /\
          exists m le ohe sc,
            d = {| model_h5 := Stored m;
                   label_encoder_gender_pkl := Stored le;
                   OHE_pkl := Stored ohe;
                   scaler_pkl := Stored sc |} /\
            loaders w2 self = artifacts m le ohe sc
      end.
Proof.
  intros H.
  assert (Hc1 : _model_loader w1 = None /\ intact (disk w1) = false).
  { destruct (_model_loader w) as [cached|] eqn:Hc.
    - rewrite (get_model_loader_cached w cached Hc) in H. discriminate.
    - rewrite (get_model_loader_empty w Hc) in H.
      destruct (ModelLoader_new_spec w)
        as (res & w' & evs & E & _ & Hd & _ & Hc' & _ & _ & _ & Hres).
      rewrite E in H. destruct res; [|discriminate].
      injection H as _ <-. destruct Hres as (Hbad & _).
      split; congruence. }
  destruct Hc1 as (Hc1 & Hbad1).
  split; [exact Hc1|]. split.
  - destruct (get_model_loader_retry w1 (disk w1) Hc1)
      as (res & w2 & evs & E & Ht & Hres).
    rewrite with_disk_same in E. destruct res as [e'|self].
    + exists e', w2, evs. destruct Hres as (_ & Hclass & Hc2). now repeat split.
    + destruct Hres as (Hok & _). congruence.
  - intros d. exact (get_model_loader_retry w1 d Hc1).
Qed.

Lemma failed_load_is_not_cached_witness :
  _model_loader Example.stalled = None /\
  (exists e' w2 evs,
      get_model_loader Example.stalled = (inl e', w2) /\
      classify e' = Some LoadError /\
      _model_loader w2 = None /\
      trace w2 =
        trace Example.stalled ++ LogInfo "Loading model and preprocessors..."
                    :: Open MODEL_PATH :: evs) /\
  forall d,
    exists res w2 evs,
      get_model_loader (with_disk d Example.stalled) = (res, w2) /\
      trace w2 =
        trace Example.stalled ++ LogInfo "Loading model and preprocessors..."
                    :: Open MODEL_PATH :: evs /\
      match res with
      | inl e' =>
          intact d = false /\
          classify e' = Some LoadError /\
          _model_loader w2 = None
      | inr self =>
          intact d = true /\
          _model_loader w2 = Some self /\
          opened evs =
            [Open LABEL_ENCODER_GENDER_PATH; Open ONE_HOT_ENCODER_PATH;
             Open SCALER_PATH] /\
          exists m le ohe sc,
            d = {| model_h5 := Stored m;
                   label_encoder_gender_pkl := Stored le;
                   OHE_pkl := Stored ohe;
                   scaler_pkl := Stored sc |} /\
            loaders w2 self = artifacts m le ohe sc
      end.
Proof.
  refine (failed_load_is_not_cached (Example.boot Example.broken_disk)
            (FileNotFoundError SCALER_PATH)
            Example.stalled _).
  vm_compute. reflexivity.
Defined.

(** The object whose initialization failed is left in the store with
    three of its attributes set, and nothing refers to it. *)
Example half_initialized_object_is_unreachable :
  loaders Example.stalled 0 =
    {| model := Some Example.the_model;
       label_encoder_gender := Some Example.gender_encoder;
       one_hot_encoder := Some Example.geo_encoder;
       scaler := None |} /\
  _model_loader Example.stalled = None.
Proof. split; reflexivity. Qed.

(* ================================================================== *)
(** ** More on loading *)

Ltac stored_before Hd :=
  let p := fresh "p" in
  let Hin := fresh "Hin" in
  intros p Hin; cbn in Hin;
  repeat (destruct Hin as [<-|Hin]; [cbn; rewrite ?Hd; reflexivity|]);
  destruct Hin.

Ltac load_ends_at Hd k :=
  do 3 eexists; exists k; split; [reflexivity|]; cbn;
  rewrite <- ?app_assoc; cbn;
  split; [reflexivity|]; split; [reflexivity|]; split; [lia|];
  split; [stored_before Hd|];
  first [ split; [reflexivity | cbn; rewrite ?Hd; reflexivity]
        | eexists; split; [reflexivity|]; split;
          [reflexivity | cbn; rewrite ?Hd; reflexivity] ].

(** X1: a load reads the four files in the order network, gender
    encoder, geography encoder, scaler, each at most once, and stops at
    the first one that is missing, unreadable or corrupt: the files
    before it were good, the error is about that file, and the files
    after it are not opened. *)
Theorem load_stops_at_first_bad_file w :
  _model_loader w = None ->
  exists res w' evs k,
    get_model_loader w = (res, w') /\
    trace w' = trace w ++ evs /\
    opened evs = map Open (firstn (S k) ARTIFACT_PATHS) /\
    k < 4 /\
    (forall p, In p (firstn k ARTIFACT_PATHS) -> stored (disk w) p = true) /\
    match res with
    | inr _ => k = 3 /\ stored (disk w) SCALER_PATH = true
    | inl e =>
        exists p,
          nth_error ARTIFACT_PATHS k = Some p /\
          path_of e = Some p /\
          stored (disk w) p = false
    end.
Proof.
  intros Hc. rewrite (get_model_loader_empty w Hc).
  unfold ModelLoader_new, __init__, _load_all, load_model, pickle_load,
    try_except, bind, new_object, setattr, emit, ret, raise.
  destruct (disk w) as [fm fle fohe fsc] eqn:Hd. cbn. rewrite ?Hd. cbn.
  destruct fm as [| | |m]; cbn; [load_ends_at Hd 0 ..|].
  rewrite ?Hd; cbn. destruct fle as [| | |le]; cbn; [load_ends_at Hd 1 ..|].
  rewrite ?Hd; cbn. destruct fohe as [| | |ohe]; cbn; [load_ends_at Hd 2 ..|].
  rewrite ?Hd; cbn. destruct fsc as [| | |sc]; cbn; load_ends_at Hd 3.
Qed.

Lemma load_stops_at_first_bad_file_witness :
  exists res w' evs k,
    get_model_loader (Example.boot Example.broken_disk) = (res, w') /\
    trace w' = trace (Example.boot Example.broken_disk) ++ evs /\
    opened evs = map Open (firstn (S k) ARTIFACT_PATHS) /\
    k < 4 /\
    (forall p, In p (firstn k ARTIFACT_PATHS) ->
               stored (disk (Example.boot Example.broken_disk)) p = true) /\
    match res with
    | inr _ =>
        k = 3 /\
        stored (disk (Example.boot Example.broken_disk)) SCALER_PATH = true
    | inl e =>
        exists p,
          nth_error ARTIFACT_PATHS k = Some p /\
          path_of e = Some p /\
          stored (disk (Example.boot Example.broken_disk)) p = false
    end.
Proof.
  apply (load_stops_at_first_bad_file (Example.boot Example.broken_disk)).
  reflexivity.
Defined.

(** X2: a first load from four good files returns a fresh object whose
    attributes are exactly the four objects stored in the files, makes
    the module global point at it, and leaves every other loader
    object, every input dictionary and the files as they were. *)
Theorem first_load_holds_what_is_on_disk w m le ohe sc :
  _model_loader w = None ->
  disk w = {| model_h5 := Stored m; label_encoder_gender_pkl := Stored le;
              OHE_pkl := Stored ohe; scaler_pkl := Stored sc |} ->
  exists w',
    get_model_loader w = (inr (next_ref w), w') /\
    loaders w' (next_ref w) = artifacts m le ohe sc /\
    (forall l, l <> next_ref w -> loaders w' l = loaders w l) /\
    dicts w' = dicts w /\
    disk w' = disk w /\
    _model_loader w' = Some (next_ref w) /\
    next_ref w' = S (next_ref w).
Proof.
  intros Hc Hd. rewrite (get_model_loader_empty w Hc).
  destruct (ModelLoader_new_spec w)
    as (res & w' & evs & E & _ & Hd' & Hdi & _ & Hn & Hfr & _ & Hres).
  rewrite E. destruct res as [e|self].
  - destruct Hres as (Hbad & _). unfold intact in Hbad. rewrite Hd in Hbad.
    discriminate.
  - destruct Hres as (-> & _ & _ & m' & le' & ohe' & sc' & Hd2 & Hl).
    rewrite Hd in Hd2. injection Hd2 as <- <- <- <-.
    exists (with_global (Some (next_ref w)) w'). cbn.
    repeat split; assumption.
Qed.

Lemma first_load_holds_what_is_on_disk_witness :
  exists w',
    get_model_loader (Example.boot Example.good_disk) = (inr 0, w') /\
    loaders w' 0 =
      artifacts Example.the_model Example.gender_encoder
        Example.geo_encoder Example.the_scaler /\
    (forall l, l <> 0 ->
       loaders w' l = loaders (Example.boot Example.good_disk) l) /\
    dicts w' = dicts (Example.boot Example.good_disk) /\
    disk w' = disk (Example.boot Example.good_disk) /\
    _model_loader w' = Some 0 /\
    next_ref w' = 1.
Proof.
  apply (first_load_holds_what_is_on_disk (Example.boot Example.good_disk)
           Example.the_model Example.gender_encoder Example.geo_encoder
           Example.the_scaler).
  - reflexivity.
  - reflexivity.
Defined.

(* ================================================================== *)
(** ** More on [predict] *)

(** X3: the gender is encoded first.  When it is outside the fitted
    set, [predict] raises the label encoder's error for it, whatever
    the geography is, the geography encoder is never called, and the
    error is logged once. *)
Theorem gender_is_checked_first w self input_data m le ohe sc r :
  loaders w self = artifacts m le ohe sc ->
  dicts w input_data = r ->
  ~ In (gender r) (classes_ le) ->
  predict self input_data w =
    (inl (UnseenLabel (gender r)),
     log [ Invoke GenderEncoder;
           LogError "Error during prediction" (UnseenLabel (gender r)) ] w).
Proof.
  intros Hl Hd Hg.
  rewrite (predict_loaded w self input_data m le ohe sc Hl).
  rewrite (feature_vector_loaded w self input_data m le ohe sc Hl).
  rewrite (assemble_loaded w self input_data m le ohe sc Hl).
  cbv zeta. rewrite Hd. unfold LabelEncoder_transform.
  destruct (index_of (gender r) (classes_ le)) as [i|] eqn:Hi.
  - exfalso. apply Hg. apply index_of_nth in Hi.
    now apply nth_error_In in Hi.
  - now rewrite log_log.
Qed.

Lemma gender_is_checked_first_witness :
  predict 0 1 Demo.asked =
    (inl (UnseenLabel "Other"),
     log [ Invoke GenderEncoder;
           LogError "Error during prediction" (UnseenLabel "Other") ]
       Demo.asked).
Proof.
  refine (gender_is_checked_first Demo.asked 0 1 Example.the_model
            Example.gender_encoder Example.geo_encoder Example.the_scaler
            Demo.outsider _ _ _).
  - reflexivity.
  - reflexivity.
  - cbn. intros [H|[H|[]]]; discriminate.
Defined.

(** X4: artifacts that were not fitted on the width the assembler
    builds make every prediction of an in-set record fail with a shape
    error, from the scaler if its statistics have another length, and
    otherwise from the network, which the scaler's error keeps from
    being called; the error is logged and re-raised. *)
Theorem mismatched_artifacts_fail w self input_data m le ohe sc r :
  loaders w self = artifacts m le ohe sc ->
  dicts w input_data = r ->
  In (gender r) (classes_ le) ->
  In (geography r) (categories_ ohe) ->
  ~ fitted_together m ohe sc ->
  let width := 9 + List.length (categories_ ohe) in
  (List.length (mean_ sc) = width /\ List.length (scale_ sc) = width /\
   predict self input_data w =
     (inl (InputShapeMismatch width (input_width m)),
      log (map Invoke pipeline
           ++ [LogError "Error during prediction"
                 (InputShapeMismatch width (input_width m))]) w))
  \/
  (predict self input_data w =
     (inl (FeatureCountMismatch width (List.length (mean_ sc))),
      log [ Invoke GenderEncoder; Invoke GeographyEncoder; Invoke Scaler;
            LogError "Error during prediction"
              (FeatureCountMismatch width (List.length (mean_ sc))) ] w)).
Proof.
  intros Hl Hd Hg Hc Hfit width.
  destruct (assemble_in_set w self input_data m le ohe sc r Hl Hd Hg Hc)
    as (i & _ & E).
  destruct (geography_frame ohe (geography r)) as (_ & _ & Hlen).
  match type of E with _ = (inr ?d, _) => set (df := d) in * end.
  assert (Hdf : List.length (values df) = width).
  { unfold values, df. rewrite length_map, length_app, Hlen. reflexivity. }
  rewrite (predict_loaded w self input_data m le ohe sc Hl).
  rewrite (feature_vector_loaded w self input_data m le ohe sc Hl), E.
  unfold StandardScaler_transform. rewrite Hdf.
  destruct (Nat.eqb_spec width (List.length (mean_ sc))) as [Hmu|Hmu];
    [destruct (Nat.eqb_spec (List.length (scale_ sc))
                 (List.length (mean_ sc))) as [Hsigma|Hsigma]|]; cbn [andb].
  - left. split; [congruence|]. split; [congruence|].
    unfold KerasModel_predict.
    rewrite standardize_length, Hdf by congruence.
    destruct (Nat.eqb_spec width (input_width m)) as [Hw|Hw].
    + exfalso. apply Hfit. unfold fitted_together. fold width.
      repeat split; congruence.
    + now rewrite !log_log.
  - right. now rewrite !log_log.
  - right. now rewrite !log_log.
Qed.

Lemma mismatched_artifacts_fail_witness :
  (List.length (mean_ Demo.short_scaler) = 12 /\
   List.length (scale_ Demo.short_scaler) = 12 /\
   predict 0 0 Demo.misfitted =
     (inl (InputShapeMismatch 12 12),
      log (map Invoke pipeline
           ++ [LogError "Error during prediction"
                 (InputShapeMismatch 12 12)]) Demo.misfitted))
  \/
  (predict 0 0 Demo.misfitted =
     (inl (FeatureCountMismatch 12 11),
      log [ Invoke GenderEncoder; Invoke GeographyEncoder; Invoke Scaler;
            LogError "Error during prediction"
              (FeatureCountMismatch 12 11) ] Demo.misfitted)).
Proof.
  refine (mismatched_artifacts_fail Demo.misfitted 0 0 Example.the_model
            Example.gender_encoder Example.geo_encoder Demo.short_scaler
            Example.customer _ _ _ _ _).
  - reflexivity.
  - reflexivity.
  - cbn. tauto.
  - cbn. tauto.
  - intros (H & _). cbn in H. discriminate.
Defined.

(* ================================================================== *)
(** ** The page *)

Import App.

Lemma show_nil (pg : Page) : show [] pg = pg.
Proof. destruct pg. unfold show, with_screen. cbn. now rewrite app_nil_r. Qed.

Lemma show_show (e1 e2 : list (container * element)) (pg : Page) :
  show e2 (show e1 pg) = show (e1 ++ e2) pg.
Proof. unfold show, with_screen. cbn. now rewrite app_assoc. Qed.

Lemma render_show place el pg :
  render place el pg = (inr tt, show [(place, el)] pg).
Proof. reflexivity. Qed.

Lemma pbind_ok {A B : Type} (c : P A) (k : A -> P B) pg a pg' :
  c pg = (inr a, pg') -> pbind c k pg = k a pg'.
Proof. intros H. unfold pbind. now rewrite H. Qed.

Lemma pbind_halt {A B : Type} (c : P A) (k : A -> P B) pg h pg' :
  c pg = (inl h, pg') -> pbind c k pg = (inl h, pg').
Proof. intros H. unfold pbind. now rewrite H. Qed.

(** What [predict] returns when it returns: the decision is the
    comparison of the probability with 0.5. *)
Lemma predict_returns_decision self input_data w p b w' :
  predict self input_data w = (inr (p, b), w') -> b = (0.5 <? p)%float.
Proof.
  unfold predict, try_except, bind at 1.
  destruct (feature_vector self input_data w) as [[e|x] w1].
  - unfold bind, emit, raise. discriminate.
  - unfold bind at 1. unfold getattr.
    destruct (model (loaders w1 self)) as [m|];
      [|unfold bind, emit, raise; discriminate].
    unfold bind at 1. unfold invoke, bind at 1. unfold emit, lift. cbn.
    destruct (KerasModel_predict m x) as [e|q]; cbn.
    + unfold bind, emit, raise. discriminate.
    + unfold ret. now intros [= <- <- _].
Qed.

(** What the button does, by the outcome of [predict]. *)
Lemma show_prediction_eval model_loader input_data pg :
  show_prediction model_loader input_data pg =
    match predict model_loader input_data (world pg) with
    | (inr (probability, will_churn), w') =>
        (inr tt,
         show
           (map (pair Col1)
              [ Spinner "Analyzing customer data...";
                Markdown [Lit "---"] false;
                Subheader "Churn Probability";
                PlotlyChart (create_probability_gauge probability) true;
                PlotlyChart (create_probability_bar probability) true;
                Markdown
                  (result_card
                     (if will_churn then "churn-high" else "churn-low")
                     (if will_churn
                      then UI.DANGER_COLOR else UI.SUCCESS_COLOR)
                     (if will_churn then "⚠️" else "✅")
                     (if will_churn
                      then "HIGH RISK - Customer is likely to churn"
                      else "LOW RISK - Customer is unlikely to churn")
                     probability) true;
                Markdown [Lit "---"] false;
                Subheader "💡 Recommendations";
                if will_churn
                then Warning ACTION_REQUIRED
                else Success CUSTOMER_STATUS ])
           (with_world w' pg))
    | (inl e, w') =>
        (inr tt,
         show
           (map (pair Col1)
              [ Spinner "Analyzing customer data...";
                Error [Lit "An error occurred during prediction: ";
                       Fmt_exn e];
                Exception e ])
           (with_world w' pg))
    end%string.
Proof.
  unfold show_prediction, ptry, pbind at 1. rewrite render_show.
  unfold pbind at 1. unfold run. cbn [world show with_screen].
  destruct (predict model_loader input_data (world pg)) as [[e|[p b]] w'].
  - unfold pbind, render, show, with_screen, with_world. cbn.
    now rewrite <- !app_assoc.
  - cbn [fst snd]. destruct b;
      unfold pbind, render, show, with_screen, with_world; cbn;
      now rewrite <- !app_assoc.
Qed.

Lemma get_model_loader_first w m le ohe sc :
  _model_loader w = None ->
  disk w = {| model_h5 := Stored m; label_encoder_gender_pkl := Stored le;
              OHE_pkl := Stored ohe; scaler_pkl := Stored sc |} ->
  exists w' evs,
    get_model_loader w = (inr (next_ref w), w') /\
    loaders w' (next_ref w) = artifacts m le ohe sc /\
    dicts w' = dicts w /\
    disk w' = disk w /\
    _model_loader w' = Some (next_ref w) /\
    trace w' = trace w ++ evs /\
    (forall c, ~ In (Invoke c) evs).
Proof.
  intros Hc Hd. rewrite (get_model_loader_empty w Hc).
  destruct (ModelLoader_new_spec w)
    as (res & w' & evs & E & Ht & Hd' & Hdi & _ & _ & _ & Hinv & Hres).
  rewrite E. destruct res as [e|self].
  - destruct Hres as (Hbad & _). unfold intact in Hbad. rewrite Hd in Hbad.
    discriminate.
  - destruct Hres as (-> & _ & _ & m' & le' & ohe' & sc' & Hd2 & Hl).
    rewrite Hd in Hd2. injection Hd2 as <- <- <- <-.
    exists (with_global (Some (next_ref w)) w'). eexists. cbn.
    repeat split; try eassumption.
    intros c [H|[H|H]]; try discriminate. exact (Hinv c H).
Qed.

Lemma get_model_loader_fails w :
  _model_loader w = None ->
  intact (disk w) = false ->
  exists e w' evs,
    get_model_loader w = (inl e, w') /\
    classify e = Some LoadError /\
    _model_loader w' = None /\
    trace w' = trace w ++ evs /\
    (forall c, ~ In (Invoke c) evs).
Proof.
  intros Hc Hbad. rewrite (get_model_loader_empty w Hc).
  destruct (ModelLoader_new_spec w)
    as (res & w' & evs & E & Ht & _ & _ & Hc' & _ & _ & Hinv & Hres).
  rewrite E. destruct res as [e|self].
  - destruct Hres as (_ & Hclass & _). exists e, w'. eexists.
    repeat split; try eassumption; [congruence|].
    intros c [H|[H|H]]; try discriminate. exact (Hinv c H).
  - destruct Hres as (_ & Hok & _). congruence.
Qed.

(** X5: [load_model] never lets an exception through to [main]: it
    returns a loader object or stops the script.  When the load fails it
    has shown the load error on the page and nothing is cached; when it
    returns, Streamlit's cache holds the object, and the next call
    returns the same object and changes nothing at all. *)
Theorem load_model_returns_or_stops pg :
  exists outcome pg',
    load_model pg = (outcome, pg') /\
    match outcome with
    | inr ml =>
        screen pg' = screen pg /\
        resource_cache pg' = Some ml /\
        load_model pg' = (inr ml, pg')
    | inl StopException =>
        exists e,
          screen pg' =
            screen pg ++ [(Body, Error [Lit "Error loading model: ";
                                        Fmt_exn e])] /\
          classify e = Some LoadError /\
          resource_cache pg' = None /\
          _model_loader (world pg') = None
    | inl (Uncaught _) => False
    end.
Proof.
  unfold load_model, cache_resource.
  destruct (resource_cache pg) as [cached|] eqn:Hr.
  - exists (inr cached), pg. rewrite Hr. now repeat split.
  - unfold ptry, run.
    destruct (_model_loader (world pg)) as [g|] eqn:Hg.
    + rewrite (get_model_loader_cached (world pg) g Hg).
      eexists. eexists. split; [reflexivity|]. cbn. now repeat split.
    + destruct (ModelLoader_new_spec (world pg))
        as (res & w' & evs & E & _ & _ & _ & Hc' & _ & _ & _ & Hres).
      rewrite (get_model_loader_empty (world pg) Hg), E.
      destruct res as [e|self].
      * eexists. eexists. split; [reflexivity|]. cbn.
        destruct Hres as (_ & Hclass & _). exists e.
        repeat split; [exact Hclass | exact Hr | congruence].
      * eexists. eexists. split; [reflexivity|]. cbn. now repeat split.
Qed.

Lemma ready_show pg ml m le ohe sc els :
  ready pg ml m le ohe sc -> ready (show els pg) ml m le ohe sc.
Proof.
  intros [H1 H2|H1 H2 H3|H1 H2 H3 H4];
    [apply ready_cached | apply ready_global | apply ready_on_disk];
    assumption.
Qed.

Lemma load_model_ready pg ml m le ohe sc :
  ready pg ml m le ohe sc ->
  exists pg1 evs,
    load_model pg = (inr ml, pg1) /\
    screen pg1 = screen pg /\
    resource_cache pg1 = Some ml /\
    loaders (world pg1) ml = artifacts m le ohe sc /\
    trace (world pg1) = trace (world pg) ++ evs /\
    (forall c, ~ In (Invoke c) evs).
Proof.
  unfold load_model, cache_resource.
  intros [Hr Hl|Hr Hg Hl|Hr Hg Hd ->]; rewrite Hr.
  - exists pg, []. rewrite app_nil_r. now repeat split.
  - unfold ptry, run. rewrite (get_model_loader_cached (world pg) ml Hg).
    eexists. exists []. split; [reflexivity|]. cbn. rewrite app_nil_r.
    now repeat split.
  - unfold ptry, run.
    destruct (get_model_loader_first (world pg) m le ohe sc Hg Hd)
      as (w' & evs & -> & Hl & _ & _ & _ & Ht & Hinv).
    eexists. exists evs. split; [reflexivity|]. cbn. now repeat split.
Qed.

Lemma sidebar_loaded st ml pg m le ohe sc :
  loaders (world pg) ml = artifacts m le ohe sc ->
  exists els,
    sidebar st ml pg = (inr (answers st le ohe), show els pg) /\
    filter is_chart els = [] /\
    (forall e, ~ In (Col1, Exception e) els).
Proof.
  intros Hl.
  unfold sidebar, st_selectbox, st_slider, st_number_input, st_radio,
    pbind, render, pret, run, getattr.
  cbn. rewrite Hl. cbn. rewrite Hl. cbn.
  eexists. split.
  - unfold show, with_screen. cbn. rewrite <- !app_assoc. cbn. reflexivity.
  - cbn. split; [reflexivity|].
    intros e H. repeat (destruct H as [H|H]; [discriminate|]). exact H.
Qed.

Lemma summary_column_shows form pg :
  exists els,
    summary_column form pg = (inr tt, show els pg) /\
    In (Col2, Header "📈 Customer Summary"%string) els /\
    In (Col2, Text [Lit "Credit Card"; Lit ": ";
                    Lit (option_of_flag (has_cr_card form))]%string) els /\
    In (Col2, Text [Lit "Active Member"; Lit ": ";
                    Lit (option_of_flag (is_active_member form))]%string) els /\
    filter is_chart els = [] /\
    (forall e, ~ In (Col1, Exception e) els).
Proof.
  unfold summary_column, pbind, render, pret. cbn.
  eexists. split.
  - unfold show, with_screen. cbn. rewrite <- !app_assoc. cbn. reflexivity.
  - cbn. repeat split; try tauto.
    intros e H. repeat (destruct H as [H|H]; [discriminate|]). exact H.
Qed.

Lemma prediction_column_eval st ml form pg :
  prediction_column st ml form pg =
    let input_data := next_ref (world pg) in
    let pg1 :=
      show [ (Col1, Header "📊 Prediction Results"%string);
             (Col1, Button "🔮 Predict Churn" "primary" true) ]
        (with_world (snd (new_dict form (world pg))) pg) in
    if button st "🔮 Predict Churn"
    then show_prediction ml input_data pg1
    else (inr tt, pg1).
Proof.
  unfold prediction_column, st_button, pbind, render, pret, run, new_dict.
  cbn.
  destruct (button st _);
    unfold show, with_screen, with_world; cbn; rewrite <- !app_assoc;
    reflexivity.
Qed.

(** The backbone of [main] once a loader object is at hand: the
    headline, the loader, the sidebar and the column layout bring the
    page to a state from which the two columns and the footer follow. *)
Lemma main_ready st pg ml m le ohe sc :
  ready pg ml m le ohe sc ->
  exists pgC evs els,
    resource_cache pgC = Some ml /\
    loaders (world pgC) ml = artifacts m le ohe sc /\
    trace (world pgC) = trace (world pg) ++ evs /\
    (forall c, ~ In (Invoke c) evs) /\
    screen pgC = screen pg ++ els /\
    filter is_chart els = [] /\
    (forall e, ~ In (Col1, Exception e) els) /\
    main st pg =
      match prediction_column st ml (answers st le ohe) pgC with
      | (inr _, pgP) =>
          (inr tt,
           show footer (snd (summary_column (answers st le ohe) pgP)))
      | (inl h, pgP) => (inl h, pgP)
      end.
Proof.
  intros Hready. unfold main.
  rewrite (pbind_ok _ _ _ _ _ (render_show _ _ _)).
  rewrite (pbind_ok _ _ _ _ _ (render_show _ _ _)). rewrite show_show.
  match goal with |- context [show ?hd pg] => set (header := hd) end.
  destruct (load_model_ready (show header pg) ml m le ohe sc
              (ready_show pg ml m le ohe sc header Hready))
    as (pgB & evs & Eload & Hscr & Hres & Hl & Ht & Hinv).
  rewrite (pbind_ok _ _ _ _ _ Eload).
  destruct (sidebar_loaded st ml pgB m le ohe sc Hl)
    as (elsS & Eside & HchartS & HexnS).
  rewrite (pbind_ok _ _ _ _ _ Eside).
  rewrite (pbind_ok _ _ _ _ _ (render_show _ _ _)). rewrite show_show.
  match goal with |- context [show ?l pgB] => set (drawn := l) end.
  exists (show drawn pgB), evs, (header ++ drawn).
  split; [exact Hres|]. split; [exact Hl|]. split; [exact Ht|].
  split; [exact Hinv|].
  split; [cbn; rewrite Hscr; cbn; now rewrite <- app_assoc|].
  split.
  { rewrite filter_app. unfold drawn. rewrite filter_app, HchartS.
    reflexivity. }
  split.
  { intros e H. apply in_app_or in H. destruct H as [H|H].
    - repeat (destruct H as [H|H]; [discriminate|]). exact H.
    - unfold drawn in H. apply in_app_or in H. destruct H as [H|H].
      + exact (HexnS e H).
      + destruct H as [H|[]]. discriminate. }
  unfold pbind at 1.
  destruct (prediction_column st ml (answers st le ohe) (show drawn pgB))
    as [[h|[]] pgP]; [reflexivity|].
  destruct (summary_column_shows (answers st le ohe) pgP)
    as (elsY & Esum & _).
  rewrite (pbind_ok _ _ _ _ _ Esum), Esum. cbn [snd].
  rewrite (pbind_ok _ _ _ _ _ (render_show _ _ _)). rewrite render_show.
  now rewrite show_show.
Qed.

Lemma prediction_column_spec st ml form pg :
  exists pgP els evs,
    prediction_column st ml form pg = (inr tt, pgP) /\
    screen pgP = screen pg ++ els /\
    resource_cache pgP = resource_cache pg /\
    loaders (world pgP) = loaders (world pg) /\
    disk (world pgP) = disk (world pg) /\
    _model_loader (world pgP) = _model_loader (world pg) /\
    trace (world pgP) = trace (world pg) ++ evs /\
    opened evs = [] /\
    dicts (world pgP) (next_ref (world pg)) = form /\
    if button st "🔮 Predict Churn"
    then
      match fst (predict ml (next_ref (world pg))
                   (snd (new_dict form (world pg)))) with
      | inr (p, b) =>
          In (Col1, PlotlyChart (create_probability_gauge p) true) els /\
          In (Col1, PlotlyChart (create_probability_bar p) true) els /\
          (forall e, ~ In (Col1, Exception e) els)
      | inl e =>
          In (Col1, Exception e) els /\
          filter is_chart els = []
      end
    else
      evs = [] /\
      filter is_chart els = [] /\
      (forall e, ~ In (Col1, Exception e) els).
Proof.
  rewrite prediction_column_eval. cbv zeta.
  destruct (button st "🔮 Predict Churn").
  - rewrite show_prediction_eval.
    set (w1 := snd (new_dict form (world pg))).
    match goal with
    | |- context [predict ml _ (world ?p)] => change (world p) with w1
    end.
    destruct (agree_frame ml (next_ref (world pg))
                (predict ml (next_ref (world pg))) w1
                (agree_predict ml (next_ref (world pg))
                   ml (next_ref (world pg))))
      as (res & evs & E & Hopen).
    rewrite E. cbn [fst].
    destruct res as [e|[p b]];
      eexists; eexists; exists evs;
      (split; [reflexivity|]); cbn;
      (split; [rewrite <- app_assoc; reflexivity|]);
      repeat (split; [first [reflexivity | exact Hopen
                            | now rewrite upd_same]|]).
    + cbn. split; [tauto|reflexivity].
    + cbn. split; [tauto|]. split; [tauto|].
      intros e H. repeat (destruct H as [H|H]; [discriminate|]).
      destruct b; destruct H as [H|[]]; discriminate.
  - eexists.
    exists [ (Col1, Header "📊 Prediction Results"%string);
             (Col1, Button "🔮 Predict Churn" "primary" true) ], [].
    split; [reflexivity|]. cbn.
    repeat (split; [first [reflexivity | now rewrite app_nil_r
                          | now rewrite upd_same]|]).
    intros e H. repeat (destruct H as [H|H]; [discriminate|]). exact H.
Qed.

(** X6: when a prediction is shown, everything on the page tells the
    same story: the gauge and the bar are drawn for the probability
    [predict] returned, and the colour of the bar (decided in app.py
    against CHURN_THRESHOLD), the class, colour, icon and wording of the
    result card, and the kind of recommendation box all follow the
    decision [predict] made (against its own 0.5): red, "churn-high" and
    the warning exactly when it said the customer will churn. *)
Theorem shown_prediction_is_consistent ml input_data pg p b w' :
  predict ml input_data (world pg) = (inr (p, b), w') ->
  let colour := if b then UI.DANGER_COLOR else UI.SUCCESS_COLOR in
  lookup "marker" (args (create_probability_bar p)) =
    Some (PDict [ ("color"%string, PList [PStr colour]) ]) /\
  show_prediction ml input_data pg =
    (inr tt,
     show
       (map (pair Col1)
          [ Spinner "Analyzing customer data...";
            Markdown [Lit "---"] false;
            Subheader "Churn Probability";
            PlotlyChart (create_probability_gauge p) true;
            PlotlyChart (create_probability_bar p) true;
            Markdown
              (result_card
                 (if b then "churn-high" else "churn-low")
                 colour
                 (if b then "⚠️" else "✅")
                 (if b
                  then "HIGH RISK - Customer is likely to churn"
                  else "LOW RISK - Customer is unlikely to churn")
                 p) true;
            Markdown [Lit "---"] false;
            Subheader "💡 Recommendations";
            if b then Warning ACTION_REQUIRED else Success CUSTOMER_STATUS ])
       (with_world w' pg))%string.
Proof.
  intros E colour. split.
  - apply predict_returns_decision in E. subst b colour.
    unfold create_probability_bar, CHURN_THRESHOLD. cbn.
    now destruct (0.5 <? p)%float.
  - now rewrite show_prediction_eval, E.
Qed.

Lemma shown_prediction_is_consistent_witness :
  lookup "marker" (args (create_probability_bar Demo.probability)) =
    Some (PDict [ ("color"%string, PList [PStr UI.SUCCESS_COLOR]) ]) /\
  show_prediction 0 1 Demo.served =
    (inr tt,
     show
       (map (pair Col1)
          [ Spinner "Analyzing customer data...";
            Markdown [Lit "---"] false;
            Subheader "Churn Probability";
            PlotlyChart (create_probability_gauge Demo.probability) true;
            PlotlyChart (create_probability_bar Demo.probability) true;
            Markdown
              (result_card "churn-low" UI.SUCCESS_COLOR "✅"
                 "LOW RISK - Customer is unlikely to churn"
                 Demo.probability) true;
            Markdown [Lit "---"] false;
            Subheader "💡 Recommendations";
            Success CUSTOMER_STATUS ])
       (with_world (snd (predict 0 1 (world Demo.served)))
          Demo.served))%string.
Proof.
  refine (shown_prediction_is_consistent 0 1 Demo.served
            Demo.probability false
            (snd (predict 0 1 (world Demo.served))) _).
  vm_compute. reflexivity.
Defined.

(** X7: when the artifacts cannot be loaded, [main] ends at
    [load_model]: the page shows the two headline elements and the load
    error, no input widget is drawn, no fitted object is called, and the
    run ends by [st.stop()], not by an exception. *)
Theorem main_stops_when_load_fails st pg :
  resource_cache pg = None ->
  _model_loader (world pg) = None ->
  intact (disk (world pg)) = false ->
  exists e pg' headline evs,
    main st pg = (inl StopException, pg') /\
    classify e = Some LoadError /\
    screen pg' =
      screen pg ++ headline
      ++ [(Body, Error [Lit "Error loading model: "; Fmt_exn e])] /\
    List.length headline = 2 /\
    filter is_widget headline = [] /\
    trace (world pg') = trace (world pg) ++ evs /\
    (forall c, ~ In (Invoke c) evs) /\
    resource_cache pg' = None.
Proof.
  intros Hr Hg Hbad. unfold main.
  rewrite (pbind_ok _ _ _ _ _ (render_show _ _ _)).
  rewrite (pbind_ok _ _ _ _ _ (render_show _ _ _)). rewrite show_show.
  match goal with |- context [show ?hd pg] => set (headline := hd) end.
  destruct (get_model_loader_fails (world pg) Hg Hbad)
    as (e & w' & evs & E & Hclass & Hg' & Ht & Hinv).
  assert (Eload : load_model (show headline pg) =
                  (inl StopException,
                   show [(Body, Error [Lit "Error loading model: ";
                                       Fmt_exn e])]
                     (with_world w' (show headline pg)))).
  { unfold load_model, cache_resource, ptry, run.
    change (resource_cache (show headline pg)) with (resource_cache pg).
    change (world (show headline pg)) with (world pg).
    rewrite Hr, E. reflexivity. }
  rewrite (pbind_halt _ _ _ _ _ Eload).
  exists e. eexists. exists headline, evs. split; [reflexivity|].
  split; [exact Hclass|]. cbn.
  split; [now rewrite <- app_assoc|].
  repeat split; assumption.
Qed.

Lemma main_stops_when_load_fails_witness :
  exists e pg' headline evs,
    main (Demo.visitor true) (Demo.first_run Example.broken_disk) =
      (inl StopException, pg') /\
    classify e = Some LoadError /\
    screen pg' =
      screen (Demo.first_run Example.broken_disk) ++ headline
      ++ [(Body, Error [Lit "Error loading model: "; Fmt_exn e])] /\
    List.length headline = 2 /\
    filter is_widget headline = [] /\
    trace (world pg') =
      trace (world (Demo.first_run Example.broken_disk)) ++ evs /\
    (forall c, ~ In (Invoke c) evs) /\
    resource_cache pg' = None.
Proof.
  refine (main_stops_when_load_fails (Demo.visitor true)
            (Demo.first_run Example.broken_disk) _ _ _).
  - reflexivity.
  - reflexivity.
  - reflexivity.
Defined.

(** X8: once a loader object is at hand, [main] always runs to its
    end, whatever the visitor does and whatever [predict] does: the
    customer summary and the footer are drawn and the loader stays in
    Streamlit's cache.  When the button was pressed the first column
    shows either the charts of a prediction and no exception, or the
    exception [predict] raised and no chart. *)
Theorem main_runs_to_the_end st pg ml m le ohe sc :
  ready pg ml m le ohe sc ->
  exists pg' before,
    main st pg = (inr tt, pg') /\
    screen pg' = screen pg ++ before ++ footer /\
    In (Col2, Header "📈 Customer Summary"%string) before /\
    resource_cache pg' = Some ml /\
    (button st "🔮 Predict Churn" = true ->
     (exists p,
         In (Col1, PlotlyChart (create_probability_gauge p) true) before /\
         In (Col1, PlotlyChart (create_probability_bar p) true) before /\
         forall e, ~ In (Col1, Exception e) before)
     \/
     (exists e,
         In (Col1, Exception e) before /\
         filter is_chart before = [])).
Proof.
  intros Hready.
  destruct (main_ready st pg ml m le ohe sc Hready)
    as (pgC & evs & els & Hres & Hl & Ht & Hinv & Hscr & Hch & Hex & ->).
  destruct (prediction_column_spec st ml (answers st le ohe) pgC)
    as (pgP & elsP & evsP & -> & HscrP & HresP & _ & _ & _ & _ & _ & _ & HP).
  destruct (summary_column_shows (answers st le ohe) pgP)
    as (elsY & -> & Hhead & _ & _ & HchY & HexY).
  cbn [snd]. eexists. exists (els ++ elsP ++ elsY).
  split; [reflexivity|]. cbn. rewrite HscrP, Hscr, HresP, Hres.
  split; [now rewrite <- !app_assoc|].
  split; [rewrite !in_app_iff; tauto|]. split; [reflexivity|].
  intros Hpress. rewrite Hpress in HP.
  destruct (fst (predict ml _ _)) as [e|[p b]].
  - right. exists e. destruct HP as (Hin & HchP).
    split; [rewrite !in_app_iff; tauto|].
    now rewrite !filter_app, Hch, HchP, HchY.
  - left. exists p. destruct HP as (Hg & Hb & HexP).
    split; [rewrite !in_app_iff; tauto|].
    split; [rewrite !in_app_iff; tauto|].
    intros e. rewrite !in_app_iff. intros [H|[H|H]].
    + exact (Hex e H).
    + exact (HexP e H).
    + exact (HexY e H).
Qed.

Lemma main_runs_to_the_end_witness :
  exists pg' before,
    main (Demo.visitor true) (Demo.first_run Example.good_disk) =
      (inr tt, pg') /\
    screen pg' =
      screen (Demo.first_run Example.good_disk) ++ before ++ footer /\
    In (Col2, Header "📈 Customer Summary"%string) before /\
    resource_cache pg' = Some 0 /\
    (button (Demo.visitor true) "🔮 Predict Churn" = true ->
     (exists p,
         In (Col1, PlotlyChart (create_probability_gauge p) true) before /\
         In (Col1, PlotlyChart (create_probability_bar p) true) before /\
         forall e, ~ In (Col1, Exception e) before)
     \/
     (exists e,
         In (Col1, Exception e) before /\
         filter is_chart before = [])).
Proof.
  refine (main_runs_to_the_end (Demo.visitor true)
            (Demo.first_run Example.good_disk) 0 Example.the_model
            Example.gender_encoder Example.geo_encoder Example.the_scaler _).
  apply ready_on_disk; reflexivity.
Defined.

(** X9: as long as the button is not pressed, [main] does not call
    [predict]: no fitted object is invoked, and the page carries neither
    a chart nor an exception. *)
Theorem no_prediction_without_the_button st pg ml m le ohe sc :
  ready pg ml m le ohe sc ->
  button st "🔮 Predict Churn" = false ->
  exists pg' drawn evs,
    main st pg = (inr tt, pg') /\
    screen pg' = screen pg ++ drawn /\
    filter is_chart drawn = [] /\
    (forall e, ~ In (Col1, Exception e) drawn) /\
    trace (world pg') = trace (world pg) ++ evs /\
    (forall c, ~ In (Invoke c) evs).
Proof.
  intros Hready Hidle.
  destruct (main_ready st pg ml m le ohe sc Hready)
    as (pgC & evs & els & Hres & Hl & Ht & Hinv & Hscr & Hch & Hex & ->).
  destruct (prediction_column_spec st ml (answers st le ohe) pgC)
    as (pgP & elsP & evsP & -> & HscrP & _ & _ & _ & _ & HtP & _ & _ & HP).
  destruct (summary_column_shows (answers st le ohe) pgP)
    as (elsY & -> & _ & _ & _ & HchY & HexY).
  rewrite Hidle in HP. destruct HP as (-> & HchP & HexP).
  cbn [snd]. eexists. exists (els ++ elsP ++ elsY ++ footer), evs.
  split; [reflexivity|]. cbn. rewrite HscrP, Hscr, HtP, Ht, app_nil_r.
  split; [now rewrite <- !app_assoc|].
  split; [now rewrite !filter_app, Hch, HchP, HchY|].
  split; [|split; [reflexivity | exact Hinv]].
  intros e. rewrite !in_app_iff. intros [H|[H|[H|H]]].
  - exact (Hex e H).
  - exact (HexP e H).
  - exact (HexY e H).
  - destruct H as [H|[H|[]]]; discriminate.
Qed.

Lemma no_prediction_without_the_button_witness :
  exists pg' drawn evs,
    main (Demo.visitor false) (Demo.first_run Example.good_disk) =
      (inr tt, pg') /\
    screen pg' = screen (Demo.first_run Example.good_disk) ++ drawn /\
    filter is_chart drawn = [] /\
    (forall e, ~ In (Col1, Exception e) drawn) /\
    trace (world pg') =
      trace (world (Demo.first_run Example.good_disk)) ++ evs /\
    (forall c, ~ In (Invoke c) evs).
Proof.
  refine (no_prediction_without_the_button (Demo.visitor false)
            (Demo.first_run Example.good_disk) 0 Example.the_model
            Example.gender_encoder Example.geo_encoder Example.the_scaler
            _ _).
  - apply ready_on_disk; reflexivity.
  - reflexivity.
Defined.

(* ================================================================== *)
(** ** The form *)

(** Every slider and number input of the form is created with a
    default inside its bounds, and its bounds are in order. *)
Lemma input_ranges_hold_their_defaults (key : UI.field) :
  (UI.min (UI.INPUT_RANGES key) <= UI.default (UI.INPUT_RANGES key)
   <= UI.max (UI.INPUT_RANGES key))%Z /\
  (UI.min (UI.INPUT_RANGES key) < UI.max (UI.INPUT_RANGES key))%Z /\
  (float_of_Z (UI.min (UI.INPUT_RANGES key))
   <=? float_of_Z (UI.default (UI.INPUT_RANGES key)))%float = true /\
  (float_of_Z (UI.default (UI.INPUT_RANGES key))
   <=? float_of_Z (UI.max (UI.INPUT_RANGES key)))%float = true.
Proof. destruct key; cbn; repeat split; (lia || reflexivity). Qed.

Lemma flag_of_option_is_a_flag (option : string) :
  flag_of_option option = 0%Z \/ flag_of_option option = 1%Z.
Proof. unfold flag_of_option. destruct (String.eqb option "Yes"); tauto. Qed.

Lemma yes_no_round_trip (option : string) :
  In option ["Yes"; "No"]%string ->
  option_of_flag (flag_of_option option) = option.
Proof. intros [<-|[<-|[]]]; reflexivity. Qed.

(** X10: with widgets that keep Streamlit's promises and encoders that
    were fitted on something, the sidebar draws its widgets without
    touching the process and hands on a record the pipeline accepts:
    gender and geography are fitted categories, the numbers lie in the
    bounds of INPUT_RANGES, and the two flags are 0 or 1, 1 exactly for
    the answer Yes. *)
Theorem form_values_are_valid st ml pg m le ohe sc :
  obliging st ->
  loaders (world pg) ml = artifacts m le ohe sc ->
  classes_ le <> [] ->
  categories_ ohe <> [] ->
  exists form pg',
    sidebar st ml pg = (inr form, pg') /\
    world pg' = world pg /\
    In (gender form) (classes_ le) /\
    In (geography form) (categories_ ohe) /\
    (18 <= age form <= 100)%Z /\
    (300 <= credit_score form <= 850)%Z /\
    (0 <= tenure form <= 10)%Z /\
    (1 <= num_of_products form <= 4)%Z /\
    (0 <=? balance form)%float = true /\
    (balance form <=? 250000)%float = true /\
    (0 <=? estimated_salary form)%float = true /\
    (estimated_salary form <=? 200000)%float = true /\
    (has_cr_card form = 1%Z <->
     radio st "💳 Has Credit Card?" ["Yes"; "No"]%string = "Yes"%string) /\
    (has_cr_card form = 0%Z <->
     radio st "💳 Has Credit Card?" ["Yes"; "No"]%string = "No"%string) /\
    (is_active_member form = 1%Z <->
     radio st "✅ Is Active Member?" ["Yes"; "No"]%string = "Yes"%string) /\
    (is_active_member form = 0%Z <->
     radio st "✅ Is Active Member?" ["Yes"; "No"]%string = "No"%string).
Proof.
  intros (Hsel & Hrad & Hsl & Hnum) Hl Hle Hohe.
  destruct (sidebar_loaded st ml pg m le ohe sc Hl) as (els & E & _).
  exists (answers st le ohe), (show els pg). split; [exact E|].
  split; [reflexivity|]. unfold answers. cbn.
  split; [now apply Hsel|]. split; [now apply Hsel|].
  split; [apply Hsl; lia|]. split; [apply Hsl; lia|].
  split; [apply Hsl; lia|]. split; [apply Hsl; lia|].
  destruct (Hnum "💰 Balance"%string 0 250000 0 1000 eq_refl eq_refl)%float
    as (Hb1 & Hb2).
  destruct (Hnum "💵 Estimated Salary"%string 0 200000 50000 1000
              eq_refl eq_refl)%float as (Hs1 & Hs2).
  repeat (split; [assumption|]).
  assert (Hflag : forall label,
             let a := radio st label ["Yes"; "No"]%string in
             (flag_of_option a = 1%Z <-> a = "Yes"%string) /\
             (flag_of_option a = 0%Z <-> a = "No"%string)).
  { intros label a.
    assert (Ha : In a ["Yes"; "No"]%string) by (apply Hrad; discriminate).
    destruct Ha as [<-|[<-|[]]]; cbn; split; split; congruence. }
  destruct (Hflag "💳 Has Credit Card?"%string) as (H1 & H2).
  destruct (Hflag "✅ Is Active Member?"%string) as (H3 & H4).
  repeat split; first [apply H1 | apply H2 | apply H3 | apply H4]; assumption.
Qed.

Lemma visitor_obliging presses : obliging (Demo.visitor presses).
Proof.
  repeat split; cbn; try assumption; try tauto; try lia.
  - destruct options; [congruence|now left].
  - destruct options; [congruence|now left].
Qed.

Lemma form_values_are_valid_witness :
  exists form pg',
    sidebar (Demo.visitor true) 0 Demo.served = (inr form, pg') /\
    world pg' = world Demo.served /\
    In (gender form) (classes_ Example.gender_encoder) /\
    In (geography form) (categories_ Example.geo_encoder) /\
    (18 <= age form <= 100)%Z /\
    (300 <= credit_score form <= 850)%Z /\
    (0 <= tenure form <= 10)%Z /\
    (1 <= num_of_products form <= 4)%Z /\
    (0 <=? balance form)%float = true /\
    (balance form <=? 250000)%float = true /\
    (0 <=? estimated_salary form)%float = true /\
    (estimated_salary form <=? 200000)%float = true /\
    (has_cr_card form = 1%Z <->
     radio (Demo.visitor true) "💳 Has Credit Card?" ["Yes"; "No"]%string
     = "Yes"%string) /\
    (has_cr_card form = 0%Z <->
     radio (Demo.visitor true) "💳 Has Credit Card?" ["Yes"; "No"]%string
     = "No"%string) /\
    (is_active_member form = 1%Z <->
     radio (Demo.visitor true) "✅ Is Active Member?" ["Yes"; "No"]%string
     = "Yes"%string) /\
    (is_active_member form = 0%Z <->
     radio (Demo.visitor true) "✅ Is Active Member?" ["Yes"; "No"]%string
     = "No"%string).
Proof.
  refine (form_values_are_valid (Demo.visitor true) 0 Demo.served
            Example.the_model Example.gender_encoder Example.geo_encoder
            Example.the_scaler (visitor_obliging true) _ _ _).
  - vm_compute. reflexivity.
  - discriminate.
  - discriminate.
Defined.

Lemma predict_fitted_returns w self input_data m le ohe sc r :
  loaders w self = artifacts m le ohe sc ->
  dicts w input_data = r ->
  fitted_together m ohe sc ->
  In (gender r) (classes_ le) ->
  In (geography r) (categories_ ohe) ->
  exists p b, fst (predict self input_data w) = inr (p, b).
Proof.
  intros Hl Hd (Hmu & Hsigma & Hwidth) Hg Hc.
  destruct (assemble_in_set w self input_data m le ohe sc r Hl Hd Hg Hc)
    as (i & _ & E).
  destruct (geography_frame ohe (geography r)) as (_ & _ & Hlen).
  match type of E with _ = (inr ?d, _) => set (df := d) in * end.
  assert (Hdf : List.length (values df) = 9 + List.length (categories_ ohe)).
  { unfold values, df. rewrite length_map, length_app, Hlen. reflexivity. }
  rewrite (predict_loaded w self input_data m le ohe sc Hl).
  rewrite (feature_vector_loaded w self input_data m le ohe sc Hl), E.
  rewrite StandardScaler_transform_fits by congruence.
  unfold KerasModel_predict.
  rewrite standardize_length, Hdf, Hwidth, Nat.eqb_refl by congruence.
  cbn [fst]. eexists. eexists. reflexivity.
Qed.

(** X11: with widgets that keep Streamlit's promises and artifacts that
    were fitted together, pressing the button always ends in a
    prediction: the record the form builds is accepted by both
    encoders, so the first column shows the two charts and never an
    exception. *)
Theorem a_visitor_always_gets_a_prediction st pg ml m le ohe sc :
  ready pg ml m le ohe sc ->
  obliging st ->
  classes_ le <> [] ->
  categories_ ohe <> [] ->
  fitted_together m ohe sc ->
  button st "🔮 Predict Churn" = true ->
  exists pg' before p,
    main st pg = (inr tt, pg') /\
    screen pg' = screen pg ++ before ++ footer /\
    In (Col1, PlotlyChart (create_probability_gauge p) true) before /\
    In (Col1, PlotlyChart (create_probability_bar p) true) before /\
    (forall e, ~ In (Col1, Exception e) before).
Proof.
  intros Hready Hst Hle Hohe Hfit Hpress.
  destruct (main_ready st pg ml m le ohe sc Hready)
    as (pgC & evs & els & Hres & Hl & Ht & Hinv & Hscr & Hch & Hex & ->).
  destruct (prediction_column_spec st ml (answers st le ohe) pgC)
    as (pgP & elsP & evsP & -> & HscrP & _ & _ & _ & _ & _ & _ & _ & HP).
  destruct (summary_column_shows (answers st le ohe) pgP)
    as (elsY & -> & _ & _ & _ & _ & HexY).
  rewrite Hpress in HP.
  destruct Hst as (Hsel & _).
  destruct (predict_fitted_returns
              (snd (new_dict (answers st le ohe) (world pgC)))
              ml (next_ref (world pgC)) m le ohe sc (answers st le ohe))
    as (p & b & Ep).
  { exact Hl. }
  { cbn. now rewrite upd_same. }
  { exact Hfit. }
  { cbn. now apply Hsel. }
  { cbn. now apply Hsel. }
  rewrite Ep in HP. destruct HP as (Hg & Hb & HexP).
  cbn [snd]. eexists. exists (els ++ elsP ++ elsY), p.
  split; [reflexivity|]. cbn. rewrite HscrP, Hscr.
  split; [now rewrite <- !app_assoc|].
  split; [rewrite !in_app_iff; tauto|].
  split; [rewrite !in_app_iff; tauto|].
  intros e. rewrite !in_app_iff. intros [H|[H|H]].
  - exact (Hex e H).
  - exact (HexP e H).
  - exact (HexY e H).
Qed.

Lemma a_visitor_always_gets_a_prediction_witness :
  exists pg' before p,
    main (Demo.visitor true) Demo.served = (inr tt, pg') /\
    screen pg' = screen Demo.served ++ before ++ footer /\
    In (Col1, PlotlyChart (create_probability_gauge p) true) before /\
    In (Col1, PlotlyChart (create_probability_bar p) true) before /\
    (forall e, ~ In (Col1, Exception e) before).
Proof.
  refine (a_visitor_always_gets_a_prediction (Demo.visitor true)
            Demo.served 0 Example.the_model Example.gender_encoder
            Example.geo_encoder Example.the_scaler _
            (visitor_obliging true) _ _ the_artifacts_fitted_together _).
  - apply ready_cached; vm_compute; reflexivity.
  - discriminate.
  - discriminate.
  - reflexivity.
Defined.

(** X12: the customer summary repeats what the visitor answered: its
    Credit Card and Active Member lines show the very answers of the
    two radio groups, after their trip through the 0/1 flags that the
    model is given. *)
Theorem summary_repeats_the_answers st pg ml m le ohe sc :
  ready pg ml m le ohe sc ->
  obliging st ->
  exists pg' before,
    main st pg = (inr tt, pg') /\
    screen pg' = screen pg ++ before ++ footer /\
    In (Col2,
        Text [ Lit "Credit Card"; Lit ": ";
               Lit (radio st "💳 Has Credit Card?" ["Yes"; "No"]) ]%string)
       before /\
    In (Col2,
        Text [ Lit "Active Member"; Lit ": ";
               Lit (radio st "✅ Is Active Member?" ["Yes"; "No"]) ]%string)
       before.
Proof.
  intros Hready (_ & Hrad & _).
  destruct (main_ready st pg ml m le ohe sc Hready)
    as (pgC & evs & els & Hres & Hl & Ht & Hinv & Hscr & Hch & Hex & ->).
  destruct (prediction_column_spec st ml (answers st le ohe) pgC)
    as (pgP & elsP & evsP & -> & HscrP & _).
  destruct (summary_column_shows (answers st le ohe) pgP)
    as (elsY & -> & _ & Hcard & Hactive & _).
  cbn [snd]. eexists. exists (els ++ elsP ++ elsY).
  split; [reflexivity|]. cbn. rewrite HscrP, Hscr.
  split; [now rewrite <- !app_assoc|].
  cbn in Hcard, Hactive.
  rewrite yes_no_round_trip in Hcard by (apply Hrad; discriminate).
  rewrite yes_no_round_trip in Hactive by (apply Hrad; discriminate).
  split; rewrite !in_app_iff; tauto.
Qed.

Lemma summary_repeats_the_answers_witness :
  exists pg' before,
    main (Demo.visitor false) Demo.served = (inr tt, pg') /\
    screen pg' = screen Demo.served ++ before ++ footer /\
    In (Col2,
        Text [ Lit "Credit Card"; Lit ": ";
               Lit (radio (Demo.visitor false) "💳 Has Credit Card?"
                      ["Yes"; "No"]) ]%string)
       before /\
    In (Col2,
        Text [ Lit "Active Member"; Lit ": ";
               Lit (radio (Demo.visitor false) "✅ Is Active Member?"
                      ["Yes"; "No"]) ]%string)
       before.
Proof.
  refine (summary_repeats_the_answers (Demo.visitor false) Demo.served 0
            Example.the_model Example.gender_encoder Example.geo_encoder
            Example.the_scaler _ (visitor_obliging false)).
  apply ready_cached; vm_compute; reflexivity.
Defined.

(* ================================================================== *)
(** ** Running the script again *)

Lemma keeps_refl pg : keeps pg pg.
Proof. now repeat split. Qed.

Lemma keeps_trans pg1 pg2 pg3 : keeps pg1 pg2 -> keeps pg2 pg3 -> keeps pg1 pg3.
Proof.
  intros (A1 & A2 & A3 & A4 & A5) (B1 & B2 & B3 & B4 & B5).
  repeat split; congruence.
Qed.

Lemma keeps_show els pg : keeps pg (show els pg).
Proof. now repeat split. Qed.

Lemma sidebar_paints st ml pg :
  exists res els, sidebar st ml pg = (res, show els pg).
Proof.
  unfold sidebar, st_selectbox, st_slider, st_number_input, st_radio,
    pbind, render, pret, run, getattr. cbn.
  destruct (one_hot_encoder (loaders (world pg) ml)) as [ohe|]; cbn.
  - destruct (label_encoder_gender (loaders (world pg) ml)) as [le|]; cbn;
      eexists; eexists; unfold show, with_screen, with_world; cbn;
      rewrite <- ?app_assoc; cbn; reflexivity.
  - eexists. eexists. unfold show, with_screen, with_world. cbn.
    rewrite <- ?app_assoc. cbn. reflexivity.
Qed.

Lemma main_keeps st pg ml :
  resource_cache pg = Some ml -> keeps pg (snd (main st pg)).
Proof.
  intros Hr. unfold main.
  rewrite (pbind_ok _ _ _ _ _ (render_show _ _ _)).
  rewrite (pbind_ok _ _ _ _ _ (render_show _ _ _)). rewrite show_show.
  match goal with |- context [show ?hd pg] => set (headline := hd) end.
  assert (Eload : load_model (show headline pg) = (inr ml, show headline pg)).
  { unfold load_model, cache_resource.
    change (resource_cache (show headline pg)) with (resource_cache pg).
    now rewrite Hr. }
  rewrite (pbind_ok _ _ _ _ _ Eload).
  apply (keeps_trans _ (show headline pg)); [apply keeps_show|].
  destruct (sidebar_paints st ml (show headline pg)) as (res & els & Eside).
  destruct res as [h|form].
  - rewrite (pbind_halt _ _ _ _ _ Eside). apply keeps_show.
  - rewrite (pbind_ok _ _ _ _ _ Eside).
    rewrite (pbind_ok _ _ _ _ _ (render_show _ _ _)). rewrite show_show.
    apply (keeps_trans _ (show (els ++ [(Body, Columns [2%Z; 1%Z])])
                            (show headline pg))); [apply keeps_show|].
    match goal with |- keeps ?p _ => set (pgC := p) end.
    destruct (prediction_column_spec st ml form pgC)
      as (pgP & elsP & evsP & E & _ & H1 & H2 & H3 & H4 & H5 & H6 & _).
    rewrite (pbind_ok _ _ _ _ _ E).
    apply (keeps_trans _ pgP).
    { repeat split; try assumption.
      rewrite H5. unfold opened in *. now rewrite filter_app, H6, app_nil_r. }
    destruct (summary_column_shows form pgP) as (elsY & Esum & _).
    rewrite (pbind_ok _ _ _ _ _ Esum).
    rewrite (pbind_ok _ _ _ _ _ (render_show _ _ _)). rewrite render_show.
    cbn [snd]. rewrite !show_show. apply keeps_show.
Qed.

(** X13: once [load_model] has cached the loader object, no later run
    of the script reads the artifact files again or touches the loader,
    whatever the visitors do in those runs and however they end: the
    cached object, the module global, the loader objects and the files
    are as they were, and no file has been opened. *)
Theorem reruns_never_reload sts : forall pg ml,
  resource_cache pg = Some ml ->
  keeps pg (reruns sts pg).
Proof.
  induction sts as [|st sts IH]; intros pg ml Hr; cbn [reruns].
  - apply keeps_refl.
  - assert (H : keeps pg (snd (main st (with_screen [] pg)))).
    { apply (keeps_trans _ (with_screen [] pg)); [now repeat split|].
      now apply (main_keeps st (with_screen [] pg) ml). }
    apply (keeps_trans _ _ _ H).
    apply (IH _ ml). destruct H as (-> & _). exact Hr.
Qed.

Lemma reruns_never_reload_witness :
  keeps Demo.served
    (reruns [Demo.visitor true; Demo.visitor false; Demo.visitor true]
       Demo.served).
Proof.
  refine (reruns_never_reload
            [Demo.visitor true; Demo.visitor false; Demo.visitor true]
            Demo.served 0 _).
  vm_compute. reflexivity.
Defined.
